(** * torch._decomp: the decomposition registry

    A shallow embedding of [torch/_decomp/__init__.py]: the three
    decomposition tables, [register_decomposition], [get_decompositions]
    and [activate_meta], followed by the properties of the registry.

    Python dictionaries keep insertion order and [activate_meta] walks them
    in that order, so a table is an association list: lookup returns the
    first binding of a key, assignment replaces a binding in place or
    appends a new one.  Exceptions leave every mutation made before the
    [raise] in place, so effectful code is a state-and-exception monad whose
    failing outcome still carries the state. *)

From stdpp Require Import base option list strings.

Set Warnings "-register-all".
Open Scope string_scope.
Open Scope list_scope.

(** ** Insertion-ordered dictionaries *)

Abbreviation dict K V := (list (K * V)).

Section dict.
Context {K V : Type} `{EqDecision K}.

(** [d.get(k)] *)
Fixpoint dict_get (d : dict K V) (k : K) : option V :=
  match d with
  | [] => None
  | (k', v) :: d' => if decide (k = k') then Some v else dict_get d' k
  end.

(** [k in d] *)
Definition dict_contains (d : dict K V) (k : K) : bool :=
  bool_decide (is_Some (dict_get d k)).

(** [d[k] = v] *)
Fixpoint dict_set (d : dict K V) (k : K) (v : V) : dict K V :=
  match d with
  | [] => [(k, v)]
  | (k', v') :: d' =>
      if decide (k = k') then (k', v) :: d' else (k', v') :: dict_set d' k v
  end.

(** [del d[k]] for a key that may be absent *)
Fixpoint dict_remove (d : dict K V) (k : K) : dict K V :=
  match d with
  | [] => []
  | (k', v') :: d' =>
      if decide (k = k') then d' else (k', v') :: dict_remove d' k
  end.

(** [d.pop(k, dflt)] *)
Definition dict_pop (d : dict K V) (k : K) (dflt : V) : V * dict K V :=
  (match dict_get d k with Some v => v | None => dflt end, dict_remove d k).

(** [list(d)] *)
Definition dict_keys (d : dict K V) : list K := d.*1.

End dict.

(** ** Operator identity (torch._ops, owned by the hosting runtime) *)

(** [a.alias_info]: present on arguments that alias storage; [is_write]
    tells a written alias from a read-only view. *)
Record AliasInfo := { is_write : bool }.

Record Argument := { arg_name : string; alias_info : option AliasInfo }.

(** [op_overload._schema] *)
Record FunctionSchema := {
  name : string;
  overload_name : string;
  arguments : list Argument;
}.

Record OpOverloadPacket := { _qualified_op_name : string }.

Record OpOverload := {
  _schema : FunctionSchema;
  overloadpacket : OpOverloadPacket;
}.

#[global] Instance AliasInfo_eq_dec : EqDecision AliasInfo.
Proof. solve_decision. Defined.
#[global] Instance Argument_eq_dec : EqDecision Argument.
Proof. solve_decision. Defined.
#[global] Instance FunctionSchema_eq_dec : EqDecision FunctionSchema.
Proof. solve_decision. Defined.
#[global] Instance OpOverloadPacket_eq_dec : EqDecision OpOverloadPacket.
Proof. solve_decision. Defined.
#[global] Instance OpOverload_eq_dec : EqDecision OpOverload.
Proof. solve_decision. Defined.

(** What [register_decomposition] and [get_decompositions] accept as an
    operator: [isinstance(aten_op, OpOverload)] or
    [isinstance(aten_op, OpOverloadPacket)]. *)
Inductive AtenOp :=
| Overload (op : OpOverload)
| Packet (packet : OpOverloadPacket).

(** The interface of the hosting runtime that the module calls into:
    [packet.overloads()], [getattr(packet, ol)] and
    [torch._C._dispatch_dump(name)]. *)
Record Runtime := {
  overloads : OpOverloadPacket -> list string;
  packet_getattr : OpOverloadPacket -> string -> OpOverload;
  _dispatch_dump : string -> string;
}.

(** ** Python values, annotations and callables *)

Inductive PyObject :=
| PyNone
| PyTensor (id : nat)
| PyTuple (items : list PyObject).

(** The annotation objects the decorator inspects: [typing.Tuple[...]]
    (whose [__origin__] is [tuple]), a named-tuple class (which has
    [_fields]) and any other type. *)
Inductive Annotation :=
| TypingTuple (args : list Annotation)
| NamedTupleType (type_name : string) (_fields : list string)
| PlainType (type_name : string).

Inductive ParameterKind := POSITIONAL_OR_KEYWORD | KEYWORD_ONLY.

(** [inspect.Parameter] *)
Record SigParameter := {
  param_name : string;
  kind : ParameterKind;
  default : option PyObject;
  annotation : option Annotation;
}.

(** A Python function as the decorator sees it: [inspect.signature(f)]
    and [f.__annotations__] (the return annotation under key ["return"]). *)
Record PyFunction := {
  fn_name : string;
  parameters : list SigParameter;
  annotations : dict string Annotation;
}.

(** [sig.return_annotation]; [None] stands for [inspect.Signature.empty]. *)
Definition return_annotation (f : PyFunction) : option Annotation :=
  dict_get (annotations f) "return".

(** What ends up in a table: [f] itself, or the closure [_fn] over [f] and
    [out_names] with its rewritten signature and annotations. *)
Inductive Callable :=
| Body (f : PyFunction)
| OutWrapper (f : PyFunction) (out_names : list string)
    (signature : list SigParameter) (wrapper_annotations : dict string Annotation).

(** ** Exceptions and the state-and-exception monad *)

Inductive Exception :=
| RuntimeError_duplicate_registrations (op_overload : OpOverload)
| AssertionError
| AttributeError (attr : string)
| TypeError_multiple_values (keyword : string)
| IndexError
| KeyError
| ValueError_duplicate_parameter (parameter : string)
| RuntimeError (message : string).

Inductive Result (A : Type) :=
| Return (a : A)
| Raise (e : Exception).
Arguments Return {A} a.
Arguments Raise {A} e.

(** A computation over mutable state [S]: the state after the computation
    is kept also when it raised. *)
Definition Py (S A : Type) : Type := S -> Result A * S.

Definition ret {S A} (a : A) : Py S A := fun s => (Return a, s).

Definition raise {S A} (e : Exception) : Py S A := fun s => (Raise e, s).

Definition bind {S A B} (c : Py S A) (k : A -> Py S B) : Py S B :=
  fun s =>
    match c s with
    | (Return a, s') => k a s'
    | (Raise e, s') => (Raise e, s')
    end.

Declare Scope py_scope.
Delimit Scope py_scope with py.
Notation "'do' x <- c ;; k" := (bind c (fun x => k))
  (at level 10, x name, c at level 99, k at level 200, only parsing) : py_scope.

(** [for x in xs: body(x)] *)
Fixpoint for_each {S A} (body : A -> Py S unit) (xs : list A) : Py S unit :=
  match xs with
  | [] => ret tt
  | x :: xs' => (do _ <- body x ;; for_each body xs')%py
  end.

(** A computation that fails or succeeds without touching the state. *)
Definition lift {S A} (r : Result A) : Py S A := fun s => (r, s).

(** ** Nested containers (torch.utils._pytree) *)

Inductive PyTree (A : Type) :=
| Leaf (a : A)
| Container (children : list (PyTree A)).
Arguments Leaf {A} a.
Arguments Container {A} children.

(** [tree_flatten]: the leaves, left to right. *)
Fixpoint tree_leaves {A} (t : PyTree A) : list A :=
  match t with
  | Leaf a => [a]
  | Container children =>
      (fix go (ts : list (PyTree A)) : list A :=
         match ts with
         | [] => []
         | t' :: ts' => tree_leaves t' ++ go ts'
         end) children
  end.

(** [tree_map(fn, pytree)] for an [fn] called for its effect: [fn] runs on
    every leaf in flattening order; the rebuilt tree of results is dropped
    by the caller. *)
Definition tree_map {S A} (fn : A -> Py S unit) (pytree : PyTree A) : Py S unit :=
  for_each fn (tree_leaves pytree).

(** ** The table store *)

Abbreviation Table := (dict OpOverload Callable).

Inductive DecompType := post_autograd | pre_autograd | meta.

#[global] Instance DecompType_eq_dec : EqDecision DecompType.
Proof. solve_decision. Defined.

(** The key of a table in [global_decomposition_table]. *)
Definition type_name (ty : DecompType) : string :=
  match ty with
  | post_autograd => "post_autograd"
  | pre_autograd => "pre_autograd"
  | meta => "meta"
  end.

(** [type in {"post_autograd", "pre_autograd", "meta"}], returning the
    table selected. *)
Definition decomp_type_of (type : string) : option DecompType :=
  if decide (type = "post_autograd") then Some post_autograd
  else if decide (type = "pre_autograd") then Some pre_autograd
  else if decide (type = "meta") then Some meta
  else None.

(** The module-level state: the three dictionaries held by
    [global_decomposition_table] under the names the module gives them, and
    the set [_disabled_meta_decomps]. *)
Record Registry := {
  decomposition_table : Table;
  pre_autograd_decomposition_table : Table;
  meta_table : Table;
  _disabled_meta_decomps : list OpOverload;
}.

(** The state at import time, before any registration. *)
Definition empty_registry : Registry :=
  {| decomposition_table := [];
     pre_autograd_decomposition_table := [];
     meta_table := [];
     _disabled_meta_decomps := [] |}.

(** [global_decomposition_table[type]] *)
Definition global_decomposition_table (st : Registry) (ty : DecompType) : Table :=
  match ty with
  | post_autograd => decomposition_table st
  | pre_autograd => pre_autograd_decomposition_table st
  | meta => meta_table st
  end.

(** The state after the dictionary [global_decomposition_table[type]] has
    been mutated into [t]. *)
Definition with_table (st : Registry) (ty : DecompType) (t : Table) : Registry :=
  match ty with
  | post_autograd =>
      {| decomposition_table := t;
         pre_autograd_decomposition_table := pre_autograd_decomposition_table st;
         meta_table := meta_table st;
         _disabled_meta_decomps := _disabled_meta_decomps st |}
  | pre_autograd =>
      {| decomposition_table := decomposition_table st;
         pre_autograd_decomposition_table := t;
         meta_table := meta_table st;
         _disabled_meta_decomps := _disabled_meta_decomps st |}
  | meta =>
      {| decomposition_table := decomposition_table st;
         pre_autograd_decomposition_table := pre_autograd_decomposition_table st;
         meta_table := t;
         _disabled_meta_decomps := _disabled_meta_decomps st |}
  end.

(** Runs a computation on the dictionary object [registry] that aliases
    [global_decomposition_table[type]]: its mutations are mutations of the
    module state, also when it raises. *)
Definition on_table {A} (ty : DecompType) (c : Py Table A) : Py Registry A :=
  fun st =>
    let '(r, t) := c (global_decomposition_table st ty) in
    (r, with_table st ty t).

(** ** Registration *)

(** The closure [_fn] built by the decorator, as the call
    of [f] it ends in: the positional arguments, and the keyword arguments
    left after the output slots were popped, with [out] added.  A call that
    passes [out] itself gives [f] two values for that keyword. *)
Record Invocation := {
  callee : PyFunction;
  call_args : list PyObject;
  call_kwargs : dict string PyObject;
}.

Definition is_None (o : PyObject) : bool :=
  match o with PyNone => true | _ => false end.

(** [tuple(kwargs.pop(o, None) for o in out_names)], with the [kwargs]
    left over. *)
Fixpoint pop_out_kwargs (out_names : list string) (kwargs : dict string PyObject)
  : list PyObject * dict string PyObject :=
  match out_names with
  | [] => ([], kwargs)
  | o :: rest =>
      let '(v, kwargs') := dict_pop kwargs o PyNone in
      let '(vs, kwargs'') := pop_out_kwargs rest kwargs' in
      (v :: vs, kwargs'')
  end.

Definition _fn (f : PyFunction) (out_names : list string)
    (args : list PyObject) (kwargs : dict string PyObject) : Result Invocation :=
  let '(out_kwargs, kwargs) := pop_out_kwargs out_names kwargs in
  match out_kwargs with
  | [] => Raise IndexError
  | first :: _ =>
      let is_none := is_None first in
      if forallb (fun o => bool_decide (is_None o = is_none)) out_kwargs then
        if dict_contains kwargs "out" then Raise (TypeError_multiple_values "out")
        else
          Return {| callee := f;
                    call_args := args;
                    call_kwargs :=
                      dict_set kwargs "out"
                        (if is_none then PyNone else PyTuple out_kwargs) |}
      else Raise AssertionError
  end.


(** [zip(out_names, out_annotation.__args__)] turned into keyword-only
    parameters defaulting to [None]. *)
Definition out_params (out_names : list string) (args : list Annotation)
  : list SigParameter :=
  (fun '(o, t) =>
     {| param_name := o; kind := KEYWORD_ONLY;
        default := Some PyNone; annotation := Some t |})
  <$> zip out_names args.

(** [inspect.Signature(parameters=params)] checks the parameters it is
    given.  The parameters kept from [sig] are those of a function, already
    checked when [sig] was made, and the slots are keyword-only parameters
    put after them; the check that can fail is the one on names: a slot
    named like a parameter before it is refused as a duplicate.  [seen] are
    the names met so far. *)
Fixpoint check_slot_names (seen : list string) (slots : list SigParameter)
  : Result unit :=
  match slots with
  | [] => Return tt
  | p :: rest =>
      if bool_decide (param_name p ∈ seen)
      then Raise (ValueError_duplicate_parameter (param_name p))
      else check_slot_names (seen ++ [param_name p]) rest
  end.

(** The first half of [decomposition_decorator]: [fn] is [f], or the
    wrapper when [out] is annotated with a [Tuple]; the slot names are the
    [_fields] of the return annotation, and reading them fails when the
    return annotation has none; building the wrapper's signature fails
    when a slot is named like another of its parameters. *)
Definition adapt_out (f : PyFunction) : Result Callable :=
  match dict_get (annotations f) "out" with
  | Some (TypingTuple args) =>
      match return_annotation f with
      | Some (NamedTupleType _ out_names) =>
          let ps := out_params out_names args in
          let kept := filter (fun p => param_name p <> "out") (parameters f) in
          match check_slot_names (param_name <$> kept) ps with
          | Raise e => Raise e
          | Return _ =>
              Return
                (OutWrapper f out_names (kept ++ ps)
                   (foldl (fun ann p =>
                             match annotation p with
                             | Some t => dict_set ann (param_name p) t
                             | None => ann
                             end)
                          (filter (fun kv => kv.1 <> "out") (annotations f)) ps))
          end
      | _ => Raise (AttributeError "_fields")
      end
  | _ => Return (Body f)
  end.

(** The entries that inserting [fn] for each of [ops] appends to a table. *)
Definition entries (fn : Callable) (ops : list OpOverload) : Table :=
  (fun o => (o, fn)) <$> ops.

Section registration.
Context (rt : Runtime).

(** The list [overloads] that [add_op_to_table] builds for one operator. *)
Definition expand_overloads (aten_op : AtenOp) : list OpOverload :=
  match aten_op with
  | Overload op => [op]
  | Packet packet => packet_getattr rt packet <$> overloads rt packet
  end.

(** [for op_overload in overloads: ...] of [add_op_to_table]; the two
    statements of the loop body that are not commented out. *)
Fixpoint insert_overloads (fn : Callable) (ops : list OpOverload) : Py Table unit :=
  match ops with
  | [] => ret tt
  | op_overload :: rest =>
      fun registry =>
        if dict_contains registry op_overload then
          (Raise (RuntimeError_duplicate_registrations op_overload), registry)
        else insert_overloads fn rest (dict_set registry op_overload fn)
  end.

Definition add_op_to_table (fn : Callable) (aten_op : AtenOp) : Py Table unit :=
  insert_overloads fn (expand_overloads aten_op).

(** Every concrete overload a registration target denotes, in the order
    [tree_map] and [add_op_to_table] reach them. *)
Definition expanded_overloads (aten_op : PyTree AtenOp) : list OpOverload :=
  tree_leaves aten_op ≫= expand_overloads.

(** [decomposition_decorator(f)] on the dictionary [registry]. *)
Definition decomposition_decorator (aten_op : PyTree AtenOp) (f : PyFunction)
  : Py Table Callable :=
  (do fn <- lift (adapt_out f) ;;
   do _ <- tree_map (add_op_to_table fn) aten_op ;;
   ret fn)%py.

(** [register_decomposition(aten_op, type=type, disable_meta=disable_meta)(f)]
    with [registry] left at [None], so that the decorator writes to
    [global_decomposition_table[type]].  [disable_meta] is accepted and not
    read: the lines that used it are commented out in the source. *)
Definition register_decomposition (aten_op : PyTree AtenOp) (type : string)
    (disable_meta : bool) (f : PyFunction) : Py Registry Callable :=
  match decomp_type_of type with
  | None => raise AssertionError
  | Some ty => on_table ty (decomposition_decorator aten_op f)
  end.

End registration.

(** ** Query *)

(** [d[k]] *)
Definition dict_getitem {K V} `{EqDecision K} (d : dict K V) (k : K) : Result V :=
  match dict_get d k with
  | Some v => Return v
  | None => Raise KeyError
  end.

(** [packets_to_overloads[packet].append(opo)] on a [defaultdict(list)] *)
Definition defaultdict_append (packets_to_overloads : dict OpOverloadPacket (list OpOverload))
    (packet : OpOverloadPacket) (opo : OpOverload)
  : dict OpOverloadPacket (list OpOverload) :=
  dict_set packets_to_overloads packet
    (match dict_get packets_to_overloads packet with
     | Some ops => ops
     | None => []
     end ++ [opo]).

(** The first loop of [get_decompositions]. *)
Definition packets_to_overloads (registry : Table)
  : dict OpOverloadPacket (list OpOverload) :=
  foldl (fun acc opo => defaultdict_append acc (overloadpacket opo) opo)
        [] (dict_keys registry).

(** [decompositions[op_overload] = registry[op_overload]] *)
Definition copy_entry (registry : Table) (op_overload : OpOverload) : Py Table unit :=
  fun decompositions =>
    match dict_getitem registry op_overload with
    | Return fn => (Return tt, dict_set decompositions op_overload fn)
    | Raise e => (Raise e, decompositions)
    end.

(** The body of the second loop of [get_decompositions]. *)
Definition collect (registry : Table)
    (index : dict OpOverloadPacket (list OpOverload)) (op : AtenOp) : Py Table unit :=
  match op with
  | Packet packet =>
      if dict_contains index packet then
        for_each (copy_entry registry)
          (match dict_get index packet with Some ops => ops | None => [] end)
      else ret tt
  | Overload o =>
      if dict_contains registry o then copy_entry registry o else ret tt
  end.

(** [get_decompositions(aten_ops, type)]: reads the module state and
    returns the fresh dictionary [decompositions]. *)
Definition get_decompositions (aten_ops : list AtenOp) (type : string)
  : Py Registry Table :=
  fun st =>
    match decomp_type_of type with
    | None => (Raise AssertionError, st)
    | Some ty =>
        let registry := global_decomposition_table st ty in
        match for_each (collect registry (packets_to_overloads registry)) aten_ops [] with
        | (Return _, decompositions) => (Return decompositions, st)
        | (Raise e, _) => (Raise e, st)
        end
    end.

(** Whether a requested item asks for overload [o]: the overload itself, or
    the packet that owns it. *)
Definition requests (op : AtenOp) (o : OpOverload) : bool :=
  match op with
  | Overload o' => bool_decide (o' = o)
  | Packet packet => bool_decide (overloadpacket o = packet)
  end.

(** ** Activation *)

Inductive DispatchKey := Meta.

(** The calls [activate_meta] makes into the hosting dispatch mechanism, in
    the order it makes them: [op_overload.py_impl(key)(fn)],
    [torch._C._dispatch_dump(name)] and [meta_lib.impl(op_overload, fn)].
    The dump the dispatcher answers with is [_dispatch_dump] of the
    runtime. *)
Inductive DispatchCall :=
| py_impl (op_overload : OpOverload) (key : DispatchKey) (fn : Callable)
| dispatch_dump (qualified_name : string)
| meta_lib_impl (op_overload : OpOverload) (fn : Callable).

(** The dispatcher is outside this module and may refuse a call: given the
    calls it has accepted so far it lets the next one return, or raises
    (as [py_impl] does for an operator that already has a Python kernel
    for the key, and [meta_lib.impl] for a kernel it cannot register). *)
Record Dispatcher := {
  refuses : list DispatchCall -> DispatchCall -> option Exception;
}.

(** One call into the dispatcher; the state is the sequence of calls that
    have returned.  The module catches nothing: a refusal is an exception
    of the caller. *)
Definition emit (dispatcher : Dispatcher) (c : DispatchCall)
  : Py (list DispatchCall) unit :=
  fun calls =>
    match refuses dispatcher calls c with
    | Some e => (Raise e, calls)
    | None => (Return tt, calls ++ [c])
    end.

(** [needle in haystack] on strings *)
Fixpoint contains (needle haystack : string) : bool :=
  String.prefix needle haystack ||
  match haystack with
  | EmptyString => false
  | String _ rest => contains needle rest
  end.

(** The [name] computed for the dispatcher: the schema name, with
    ["." + overload_name] when the overload name is not empty. *)
Definition dispatch_name (op_overload : OpOverload) : string :=
  let s := _schema op_overload in
  if decide (overload_name s = "") then name s
  else String.append (name s) (String.append "." (overload_name s)).

(** [any(a.alias_info is not None and not a.alias_info.is_write
         for a in op_overload._schema.arguments)] *)
Definition is_view_op (op_overload : OpOverload) : bool :=
  existsb
    (fun a =>
       match alias_info a with
       | Some info => negb (is_write info)
       | None => false
       end)
    (arguments (_schema op_overload)).

(** [for opo in registry: if opo not in activate_meta_table: ...] *)
Definition merge_registry (registry : Table) : Py Table unit :=
  for_each
    (fun opo activate_meta_table =>
       if dict_contains activate_meta_table opo then (Return tt, activate_meta_table)
       else
         match dict_getitem registry opo with
         | Return fn => (Return tt, dict_set activate_meta_table opo fn)
         | Raise e => (Raise e, activate_meta_table)
         end)
    (dict_keys registry).

(** The first loop of [activate_meta], on the local [activate_meta_table]. *)
Definition build_activate_meta_table (st : Registry) : Py Table unit :=
  for_each (fun ty => merge_registry (global_decomposition_table st ty))
           [meta; post_autograd; pre_autograd].

Section activation.
Context (rt : Runtime) (dispatcher : Dispatcher).

(** The body of the second loop of [activate_meta]. *)
Definition activate_entry (entry : OpOverload * Callable)
  : Py (list DispatchCall) unit :=
  let '(op_overload, fn) := entry in
  (do _ <- emit dispatcher (py_impl op_overload Meta fn) ;;
   let name := dispatch_name op_overload in
   do _ <- emit dispatcher (dispatch_dump name) ;;
   let dispatch_key_registration := _dispatch_dump rt name in
   if contains "CompositeImplicitAutograd" dispatch_key_registration then ret tt
   else if is_view_op op_overload then ret tt
   else emit dispatcher (meta_lib_impl op_overload fn))%py.

(** [activate_meta()]: the state is the sequence of calls the dispatch
    mechanism has accepted; the registry is read and not written.  An
    exception of a dispatcher call leaves the loop. *)
Definition activate_meta (st : Registry) : Py (list DispatchCall) unit :=
  fun calls =>
    match build_activate_meta_table st [] with
    | (Return _, activate_meta_table) =>
        for_each activate_entry activate_meta_table calls
    | (Raise e, _) => (Raise e, calls)
    end.

(** The outcome of the two tests of the loop body for one overload: neither
    the composite marker in the dump nor a read-only alias argument. *)
Definition installable (op_overload : OpOverload) : bool :=
  negb (contains "CompositeImplicitAutograd"
          (_dispatch_dump rt (dispatch_name op_overload)))
  && negb (is_view_op op_overload).

(** The calls one entry of [activate_meta_table] gives rise to. *)
Definition entry_calls (entry : OpOverload * Callable) : list DispatchCall :=
  py_impl entry.1 Meta entry.2 :: dispatch_dump (dispatch_name entry.1) ::
  (if installable entry.1 then [meta_lib_impl entry.1 entry.2] else []).

End activation.

(** ** A small hosting runtime and some functions, for concrete runs *)

Module Example.

Definition tensor_arg (n : string) : Argument :=
  {| arg_name := n; alias_info := None |}.

Definition example_arguments (qualified_name ol : string) : list Argument :=
  if decide (qualified_name = "aten::view") then
    [ {| arg_name := "self"; alias_info := Some {| is_write := false |} |};
      tensor_arg "size" ]
  else if decide (ol = "out") then
    [ tensor_arg "self"; tensor_arg "other";
      {| arg_name := "out"; alias_info := Some {| is_write := true |} |} ]
  else [ tensor_arg "self"; tensor_arg "other" ].

(** [aten::add] has three overloads, every other packet only the default
    one; [aten::linear] is the operator with a composite kernel. *)
Definition aten : Runtime :=
  {| overloads := fun packet =>
       if decide (_qualified_op_name packet = "aten::add")
       then ["Tensor"; "Scalar"; "out"] else ["default"];
     packet_getattr := fun packet ol =>
       {| _schema :=
            {| name := _qualified_op_name packet;
               overload_name := if decide (ol = "default") then "" else ol;
               arguments := example_arguments (_qualified_op_name packet) ol |};
          overloadpacket := packet |};
     _dispatch_dump := fun qualified_name =>
       if decide (qualified_name = "aten::linear")
       then "name: aten::linear
CompositeImplicitAutograd[alias]: registered at aten/src/ATen/RegisterCompositeImplicitAutograd.cpp"
       else String.append "name: " (String.append qualified_name "
CPU: registered at aten/src/ATen/RegisterCPU.cpp") |}.

Definition aten_add : OpOverloadPacket := {| _qualified_op_name := "aten::add" |}.
Definition aten_view : OpOverloadPacket := {| _qualified_op_name := "aten::view" |}.
Definition aten_linear : OpOverloadPacket := {| _qualified_op_name := "aten::linear" |}.
Definition aten_mul : OpOverloadPacket := {| _qualified_op_name := "aten::mul" |}.

Definition add_Tensor : OpOverload := packet_getattr aten aten_add "Tensor".
Definition add_Scalar : OpOverload := packet_getattr aten aten_add "Scalar".
Definition add_out : OpOverload := packet_getattr aten aten_add "out".
Definition view_default : OpOverload := packet_getattr aten aten_view "default".
Definition linear_default : OpOverload := packet_getattr aten aten_linear "default".
Definition mul_default : OpOverload := packet_getattr aten aten_mul "default".

Definition positional (n : string) : SigParameter :=
  {| param_name := n; kind := POSITIONAL_OR_KEYWORD;
     default := None; annotation := Some (PlainType "Tensor") |}.

(** [def f1(self, other): ...] and [def f2(self, other): ...] *)
Definition f1 : PyFunction :=
  {| fn_name := "f1"; parameters := [positional "self"; positional "other"];
     annotations := [("self", PlainType "Tensor"); ("other", PlainType "Tensor")] |}.
Definition f2 : PyFunction :=
  {| fn_name := "f2"; parameters := [positional "self"; positional "other"];
     annotations := [("self", PlainType "Tensor"); ("other", PlainType "Tensor")] |}.

Definition ResultPair : Annotation := NamedTupleType "ResultPair" ["sum"; "count"].

(** [def stats(self, *, out: Tuple[Tensor, Tensor] = None) -> ResultPair: ...] *)
Definition stats : PyFunction :=
  {| fn_name := "stats";
     parameters :=
       [ positional "self";
         {| param_name := "out"; kind := KEYWORD_ONLY; default := Some PyNone;
            annotation := Some (TypingTuple [PlainType "Tensor"; PlainType "Tensor"]) |} ];
     annotations :=
       [ ("self", PlainType "Tensor");
         ("out", TypingTuple [PlainType "Tensor"; PlainType "Tensor"]);
         ("return", ResultPair) ] |}.

(** The same function with [out] annotated but no return annotation. *)
Definition stats_unannotated : PyFunction :=
  {| fn_name := "stats";
     parameters := parameters stats;
     annotations :=
       [ ("self", PlainType "Tensor");
         ("out", TypingTuple [PlainType "Tensor"; PlainType "Tensor"]) ] |}.


(** A function that has a parameter named like a field of its result:
    [def total(sum, *, out: Tuple[Tensor, Tensor] = None) -> ResultPair: ...] *)
Definition total : PyFunction :=
  {| fn_name := "total";
     parameters :=
       [ positional "sum";
         {| param_name := "out"; kind := KEYWORD_ONLY; default := Some PyNone;
            annotation := Some (TypingTuple [PlainType "Tensor"; PlainType "Tensor"]) |} ];
     annotations :=
       [ ("sum", PlainType "Tensor");
         ("out", TypingTuple [PlainType "Tensor"; PlainType "Tensor"]);
         ("return", ResultPair) ] |}.

(** A dispatcher that accepts every call. *)
Definition accepting : Dispatcher := {| refuses := fun _ _ => None |}.

(** A dispatcher that keeps one Python kernel per operator and key, and
    one library kernel per operator: it refuses to override either. *)
Definition strict : Dispatcher :=
  {| refuses := fun calls c =>
       match c with
       | py_impl o key _ =>
           if existsb (fun c' => match c' with
                                 | py_impl o' _ _ => bool_decide (o' = o)
                                 | _ => false
                                 end) calls
           then Some (RuntimeError "Trying to override a python impl for Meta")
           else None
       | meta_lib_impl o _ =>
           if existsb (fun c' => match c' with
                                 | meta_lib_impl o' _ => bool_decide (o' = o)
                                 | _ => false
                                 end) calls
           then Some (RuntimeError "already a kernel registered from python")
           else None
       | dispatch_dump _ => None
       end |}.


(** The module state after [register_decomposition(aten.add.Scalar)(f1)]. *)
Definition scalar_registered : Registry :=
  {| decomposition_table := [(add_Scalar, Body f1)];
     pre_autograd_decomposition_table := [];
     meta_table := [];
     _disabled_meta_decomps := [] |}.

(** The module state after [add.Tensor] and [add.Scalar], but not
    [add.out], have been registered with [f1]. *)
Definition partly_registered : Registry :=
  {| decomposition_table := [(add_Tensor, Body f1); (add_Scalar, Body f1)];
     pre_autograd_decomposition_table := [];
     meta_table := [];
     _disabled_meta_decomps := [] |}.


(** The module state of the end-to-end scenario: [add.Tensor] registered
    with [f1] after autograd and with [f2] as meta, next to a view operator
    and an operator with a composite kernel. *)
Definition loaded : Registry :=
  {| decomposition_table :=
       [(add_Tensor, Body f1); (view_default, Body f1); (linear_default, Body f1)];
     pre_autograd_decomposition_table := [(mul_default, Body f1)];
     meta_table := [(add_Tensor, Body f2)];
     _disabled_meta_decomps := [] |}.

End Example.

Import Example.

(** ** Notions used to state further properties *)

(** Every table of the module is a dictionary proper: no key occurs twice
    in its list of entries. *)
Definition unique_keys (st : Registry) : Prop :=
  forall ty, NoDup (dict_keys (global_decomposition_table st ty)).

(** What a call passes for the output slot [o]: its keyword argument, or
    [None] when it is left out. *)
Definition slot_value (kwargs : dict string PyObject) (o : string) : PyObject :=
  match dict_get kwargs o with
  | Some v => v
  | None => PyNone
  end.

(** The overload a [py_impl] call registers for, and the overload a
    [meta_lib.impl] call installs for. *)
Definition py_impl_target (c : DispatchCall) : option OpOverload :=
  match c with
  | py_impl op_overload _ _ => Some op_overload
  | _ => None
  end.

Definition install_target (c : DispatchCall) : option OpOverload :=
  match c with
  | meta_lib_impl op_overload _ => Some op_overload
  | _ => None
  end.

(** * Properties *)

(** ** Dictionaries *)

Section dict_facts.
Context {K V : Type} `{EqDecision K}.
Implicit Types (d : dict K V) (k : K) (v : V).

Lemma dict_contains_true d k :
  dict_contains d k = true <-> is_Some (dict_get d k).
Proof. unfold dict_contains. apply bool_decide_eq_true. Qed.

Lemma dict_contains_false d k :
  dict_contains d k = false <-> dict_get d k = None.
Proof.
  unfold dict_contains. rewrite bool_decide_eq_false.
  rewrite <- eq_None_not_Some. reflexivity.
Qed.

Lemma dict_get_keys d k : is_Some (dict_get d k) <-> k ∈ dict_keys d.
Proof.
  unfold dict_keys. induction d as [|[k' v'] d IH]; simpl.
  - split; [intros [? ?]; discriminate | intros Hin; inversion Hin].
  - destruct (decide (k = k')) as [->|Hne].
    + split; [intros _; left | intros _; eauto].
    + rewrite IH. split; [intros Hin; right; exact Hin|].
      intros Hin. inversion Hin; subst; [contradiction | assumption].
Qed.

Lemma dict_get_elem d k v : dict_get d k = Some v -> (k, v) ∈ d.
Proof.
  induction d as [|[k' v'] d IH]; simpl; [discriminate|].
  destruct (decide (k = k')) as [->|Hne].
  - intros [= ->]. left.
  - intros Hget. right. auto.
Qed.

Lemma dict_get_app d1 d2 k :
  dict_get (d1 ++ d2) k =
  match dict_get d1 k with Some v => Some v | None => dict_get d2 k end.
Proof.
  induction d1 as [|[k' v'] d1 IH]; simpl; [reflexivity|].
  destruct (decide (k = k')); [reflexivity | exact IH].
Qed.

Lemma dict_set_fresh d k v :
  dict_get d k = None -> dict_set d k v = d ++ [(k, v)].
Proof.
  induction d as [|[k' v'] d IH]; simpl; [reflexivity|].
  destruct (decide (k = k')); [discriminate|].
  intros Hget. rewrite IH by assumption. reflexivity.
Qed.

Lemma dict_get_set d k v k' :
  dict_get (dict_set d k v) k' =
  if decide (k' = k) then Some v else dict_get d k'.
Proof.
  induction d as [|[k0 v0] d IH]; simpl.
  - destruct (decide (k' = k)); reflexivity.
  - destruct (decide (k = k0)) as [->|Hne]; simpl.
    + destruct (decide (k' = k0)); reflexivity.
    + destruct (decide (k' = k0)) as [->|Hne'].
      * destruct (decide (k0 = k)); [congruence | reflexivity].
      * exact IH.
Qed.

Lemma dict_get_remove_ne d k k' :
  k' <> k -> dict_get (dict_remove d k) k' = dict_get d k'.
Proof.
  intros Hne. induction d as [|[k0 v0] d IH]; simpl; [reflexivity|].
  destruct (decide (k = k0)) as [->|Hne0]; simpl.
  - destruct (decide (k' = k0)); [contradiction | reflexivity].
  - destruct (decide (k' = k0)); [reflexivity | exact IH].
Qed.


Lemma dict_get_NoDup d k v :
  NoDup (dict_keys d) -> (k, v) ∈ d -> dict_get d k = Some v.
Proof.
  induction d as [|[k0 v0] d IH]; intros Hnd Hin; [inversion Hin|].
  change (dict_keys ((k0, v0) :: d)) with (k0 :: dict_keys d) in Hnd.
  apply NoDup_cons in Hnd as [Hk0 Hnd]. simpl.
  apply elem_of_cons in Hin as [[= -> ->]|Hin].
  - rewrite decide_True by reflexivity. reflexivity.
  - destruct (decide (k = k0)) as [->|Hne]; [|auto].
    exfalso. apply Hk0. unfold dict_keys.
    apply list_elem_of_fmap. exists (k0, v). split; [reflexivity | exact Hin].
Qed.

Lemma dict_keys_set d k v :
  dict_keys (dict_set d k v) =
  if dict_contains d k then dict_keys d else dict_keys d ++ [k].
Proof.
  induction d as [|[k0 v0] d IH].
  - reflexivity.
  - assert (Hc : dict_contains ((k0, v0) :: d) k =
                 if decide (k = k0) then true else dict_contains d k).
    { unfold dict_contains. simpl. destruct (decide (k = k0)); [|reflexivity].
      apply bool_decide_eq_true_2. eauto. }
    rewrite Hc. cbn [dict_set]. destruct (decide (k = k0)) as [->|Hne].
    + reflexivity.
    + change (dict_keys ((k0, v0) :: dict_set d k v))
        with (k0 :: dict_keys (dict_set d k v)).
      rewrite IH. destruct (dict_contains d k); reflexivity.
Qed.

Lemma dict_set_NoDup d k v : NoDup (dict_keys d) -> NoDup (dict_keys (dict_set d k v)).
Proof.
  intros Hnd. rewrite dict_keys_set. destruct (dict_contains d k) eqn:Hin; [assumption|].
  apply NoDup_app. split; [assumption|]. split; [|apply NoDup_singleton].
  intros k' Hk' Heq. apply list_elem_of_singleton in Heq as ->.
  apply dict_get_keys in Hk'. apply dict_contains_true in Hk'. congruence.
Qed.

End dict_facts.

(** ** The monad *)

Lemma bind_ext {S A B} (c1 c2 : Py S A) (k1 k2 : A -> Py S B) (s : S) :
  c1 s = c2 s -> (forall a s', k1 a s' = k2 a s') -> bind c1 k1 s = bind c2 k2 s.
Proof.
  intros Hc Hk. unfold bind. rewrite Hc.
  destruct (c2 s) as [[a|e] s']; [apply Hk | reflexivity].
Qed.

Lemma for_each_app {S A} (body : A -> Py S unit) (xs ys : list A) (s : S) :
  for_each body (xs ++ ys) s =
  bind (for_each body xs) (fun _ => for_each body ys) s.
Proof.
  revert s. induction xs as [|x xs IH]; intros s; simpl.
  - reflexivity.
  - unfold bind in *. destruct (body x s) as [[[]|e] s']; [|reflexivity].
    apply IH.
Qed.

(** A loop keeps what every run of its body keeps. *)
Lemma for_each_invariant {S A} (P : S -> Prop) (body : A -> Py S unit) (xs : list A) :
  (forall x s, P s -> P (body x s).2) ->
  forall s, P s -> P (for_each body xs s).2.
Proof.
  intros Hbody. induction xs as [|x xs IH]; intros s Hs; simpl; [assumption|].
  unfold bind. specialize (Hbody x s Hs).
  destruct (body x s) as [[[]|e] s']; simpl in *; [apply IH|]; assumption.
Qed.

(** ** Registration *)

Lemma with_table_same st ty : with_table st ty (global_decomposition_table st ty) = st.
Proof. destruct st, ty; reflexivity. Qed.

Lemma table_with_table st ty t : global_decomposition_table (with_table st ty t) ty = t.
Proof. destruct ty; reflexivity. Qed.

Lemma table_with_table_ne st ty ty' t :
  ty <> ty' ->
  global_decomposition_table (with_table st ty t) ty' = global_decomposition_table st ty'.
Proof. destruct ty, ty'; intros Hne; try reflexivity; contradiction. Qed.

Lemma with_table_twice st ty t t' :
  with_table (with_table st ty t) ty t' = with_table st ty t'.
Proof. destruct ty; reflexivity. Qed.

Lemma disabled_with_table st ty t :
  _disabled_meta_decomps (with_table st ty t) = _disabled_meta_decomps st.
Proof. destruct ty; reflexivity. Qed.

Lemma decomp_type_of_name ty : decomp_type_of (type_name ty) = Some ty.
Proof. destruct ty; reflexivity. Qed.

Lemma dict_get_entries fn ops o : o ∈ ops -> dict_get (entries fn ops) o = Some fn.
Proof.
  induction ops as [|o' ops IH]; intros Hin; [inversion Hin|]. simpl.
  destruct (decide (o = o')); [reflexivity|].
  apply IH. inversion Hin; subst; [contradiction | assumption].
Qed.

Lemma dict_get_entries_None fn ops o : o ∉ ops -> dict_get (entries fn ops) o = None.
Proof.
  induction ops as [|o' ops IH]; intros Hin; [reflexivity|]. simpl.
  apply not_elem_of_cons in Hin as [Hne Hin].
  destruct (decide (o = o')); [contradiction | auto].
Qed.

Section registration_facts.
Context (rt : Runtime).
Implicit Types (fn : Callable) (registry : Table) (ops : list OpOverload).

Lemma insert_overloads_app fn ops1 ops2 registry :
  insert_overloads fn (ops1 ++ ops2) registry =
  bind (insert_overloads fn ops1) (fun _ => insert_overloads fn ops2) registry.
Proof.
  revert registry. induction ops1 as [|o ops1 IH]; intros registry; simpl.
  - reflexivity.
  - unfold bind in *. destruct (dict_contains registry o); [reflexivity|].
    apply IH.
Qed.

Lemma tree_map_add_op_to_table fn aten_op registry :
  tree_map (add_op_to_table rt fn) aten_op registry =
  insert_overloads fn (expanded_overloads rt aten_op) registry.
Proof.
  unfold tree_map, expanded_overloads. revert registry.
  induction (tree_leaves aten_op) as [|leaf leaves IH]; intros registry.
  - reflexivity.
  - change ((leaf :: leaves) ≫= expand_overloads rt)
      with (expand_overloads rt leaf ++ (leaves ≫= expand_overloads rt)).
    rewrite insert_overloads_app. simpl. unfold bind, add_op_to_table.
    destruct (insert_overloads fn (expand_overloads rt leaf) registry)
      as [[[]|e] registry']; [apply IH | reflexivity].
Qed.

(** A run that returns has appended one entry per overload, none of which
    was a key before and no two of which are equal. *)
Lemma insert_overloads_Return fn ops registry registry' :
  insert_overloads fn ops registry = (Return tt, registry') ->
  registry' = registry ++ entries fn ops /\
  NoDup ops /\ Forall (fun o => dict_get registry o = None) ops.
Proof.
  revert registry. induction ops as [|o ops IH]; intros registry; simpl.
  - intros [= <-]. rewrite app_nil_r. repeat split; constructor.
  - destruct (dict_contains registry o) eqn:Hin; [discriminate|].
    apply dict_contains_false in Hin. intros Hrun.
    rewrite (dict_set_fresh _ _ _ Hin) in Hrun.
    apply IH in Hrun as (-> & Hnd & Hfresh).
    rewrite <- app_assoc.
    rewrite Forall_forall in Hfresh.
    assert (Hold : forall o', o' ∈ ops -> o' <> o /\ dict_get registry o' = None).
    { intros o' Ho'. specialize (Hfresh o' Ho').
      rewrite dict_get_app in Hfresh. simpl in Hfresh.
      destruct (dict_get registry o'); [discriminate|].
      destruct (decide (o' = o)); [discriminate | auto]. }
    split; [reflexivity|]. split.
    + constructor; [|assumption]. intros Ho. destruct (Hold o Ho) as [Hne _]. auto.
    + constructor; [assumption|]. apply Forall_forall. intros o' Ho'.
      apply Hold, Ho'.
Qed.

(** A run that raises stopped at the first overload that keys the table by
    then; the overloads before it have been appended. *)
Lemma insert_overloads_Raise fn ops registry e registry' :
  insert_overloads fn ops registry = (Raise e, registry') ->
  exists pre o post,
    ops = pre ++ o :: post /\
    e = RuntimeError_duplicate_registrations o /\
    registry' = registry ++ entries fn pre /\
    dict_contains registry' o = true /\
    Forall (fun o' => dict_get registry o' = None) pre.
Proof.
  revert registry. induction ops as [|o ops IH]; intros registry; simpl.
  - discriminate.
  - destruct (dict_contains registry o) eqn:Hin.
    + intros [= <- <-]. exists [], o, ops. simpl. rewrite app_nil_r.
      repeat split; [assumption | constructor].
    + apply dict_contains_false in Hin. intros Hrun.
      rewrite (dict_set_fresh _ _ _ Hin) in Hrun.
      apply IH in Hrun as (pre & o' & post & -> & -> & -> & Hdup & Hfresh).
      exists (o :: pre), o', post.
      rewrite <- app_assoc in *.
      repeat split; [assumption|].
      constructor; [assumption|].
      eapply Forall_impl; [exact Hfresh|]. intros o'' Hget. simpl in Hget.
      rewrite dict_get_app in Hget. destruct (dict_get registry o''); [discriminate | reflexivity].
Qed.

Lemma insert_overloads_fresh fn ops registry :
  NoDup ops -> Forall (fun o => dict_get registry o = None) ops ->
  insert_overloads fn ops registry = (Return tt, registry ++ entries fn ops).
Proof.
  revert registry. induction ops as [|o ops IH]; intros registry Hnd Hfresh; simpl.
  - rewrite app_nil_r. reflexivity.
  - inversion Hnd as [|? ? Hnotin Hnd']; subst.
    inversion Hfresh as [|? ? Ho Hfresh']; subst.
    apply dict_contains_false in Ho as Hc. rewrite Hc.
    rewrite (dict_set_fresh _ _ _ Ho), IH.
    + rewrite <- app_assoc. reflexivity.
    + assumption.
    + rewrite Forall_forall in *. intros o' Ho'.
      rewrite dict_get_app, (Hfresh' o' Ho'). simpl.
      destruct (decide (o' = o)) as [->|]; [contradiction | reflexivity].
Qed.

(** An overload that already keys the table makes the run raise. *)
Lemma insert_overloads_duplicate fn ops registry o :
  o ∈ ops -> dict_contains registry o = true ->
  exists o' registry',
    insert_overloads fn ops registry =
      (Raise (RuntimeError_duplicate_registrations o'), registry').
Proof.
  intros Hin Hdup.
  destruct (insert_overloads fn ops registry) as [[[]|e] registry'] eqn:Hrun.
  - apply insert_overloads_Return in Hrun as (_ & _ & Hfresh).
    rewrite Forall_forall in Hfresh. specialize (Hfresh o Hin).
    apply dict_contains_false in Hfresh. congruence.
  - apply insert_overloads_Raise in Hrun as (pre & o' & post & _ & -> & _).
    eauto.
Qed.

(** [register_decomposition] in one step: adaptation, then the insertion
    loop over all expanded overloads on the table of the mode. *)
Lemma register_decomposition_run ty aten_op disable_meta f st :
  register_decomposition rt aten_op (type_name ty) disable_meta f st =
  match adapt_out f with
  | Raise e => (Raise e, st)
  | Return fn =>
      match insert_overloads fn (expanded_overloads rt aten_op)
              (global_decomposition_table st ty) with
      | (Return _, t) => (Return fn, with_table st ty t)
      | (Raise e, t) => (Raise e, with_table st ty t)
      end
  end.
Proof.
  unfold register_decomposition. rewrite decomp_type_of_name.
  unfold on_table, decomposition_decorator, bind, lift, ret.
  destruct (adapt_out f) as [fn|e].
  - rewrite tree_map_add_op_to_table.
    destruct (insert_overloads fn _ _) as [[[]|e] t]; reflexivity.
  - rewrite with_table_same. reflexivity.
Qed.

(** Registering a single overload: one membership test, one assignment. *)
Lemma register_overload_run ty o disable_meta f st fn :
  adapt_out f = Return fn ->
  register_decomposition rt (Leaf (Overload o)) (type_name ty) disable_meta f st =
  if dict_contains (global_decomposition_table st ty) o
  then (Raise (RuntimeError_duplicate_registrations o), st)
  else (Return fn,
        with_table st ty (dict_set (global_decomposition_table st ty) o fn)).
Proof.
  intros Hf. rewrite register_decomposition_run, Hf. simpl.
  destruct (dict_contains (global_decomposition_table st ty) o);
    [rewrite with_table_same|]; reflexivity.
Qed.

End registration_facts.

(** ** Duplicate registrations *)

(** A run that raises has inserted a prefix of distinct overloads, none of
    which was a key, and stopped at an overload that is a key by then. *)
Lemma insert_overloads_Raise_prefix (fn : Callable) (ops : list OpOverload)
    (registry registry' : Table) (e : Exception) :
  insert_overloads fn ops registry = (Raise e, registry') ->
  exists pre o post,
    ops = pre ++ o :: post /\
    e = RuntimeError_duplicate_registrations o /\
    registry' = registry ++ entries fn pre /\
    dict_contains registry' o = true /\
    Forall (fun o' => dict_contains registry o' = false) pre /\
    NoDup pre.
Proof.
  revert registry. induction ops as [|o ops IH]; intros registry; simpl.
  - discriminate.
  - destruct (dict_contains registry o) eqn:Hin.
    + intros [= <- <-]. exists [], o, ops. simpl. rewrite app_nil_r.
      repeat split; [assumption | constructor | constructor].
    + apply dict_contains_false in Hin as Hnone. intros Hrun.
      rewrite (dict_set_fresh _ _ _ Hnone) in Hrun.
      apply IH in Hrun as (pre & o' & post & -> & -> & -> & Hdup & Hfresh & Hnd).
      exists (o :: pre), o', post. rewrite <- app_assoc in *.
      rewrite Forall_forall in Hfresh.
      assert (Hold : forall p, p ∈ pre -> p <> o /\ dict_contains registry p = false).
      { intros p Hp. specialize (Hfresh p Hp).
        apply dict_contains_false in Hfresh. rewrite dict_get_app in Hfresh.
        destruct (dict_get registry p) eqn:Hget; [discriminate|].
        simpl in Hfresh. destruct (decide (p = o)); [discriminate|].
        split; [assumption|]. apply dict_contains_false, Hget. }
      repeat split; [assumption | |].
      * constructor; [assumption|]. apply Forall_forall. intros p Hp. apply Hold, Hp.
      * constructor; [|assumption]. intros Ho. destruct (Hold o Ho) as [Hne _]. auto.
Qed.

(** The claim of C1 fails for a callable the decorator does not accept:
    [add.Scalar] is registered, and registering it again with a function
    whose [out] is a [Tuple] and whose return annotation has no [_fields]
    raises the attribute error; with a function that has a parameter named
    like a result field it raises the error of the signature.  Neither is
    the duplicate-registration error. *)
Lemma duplicate_registration_not_for_every_callable :
  let register f :=
    register_decomposition aten (Leaf (Overload add_Scalar)) "post_autograd" false f
      scalar_registered in
  dict_contains (decomposition_table scalar_registered) add_Scalar = true /\
  register stats_unannotated = (Raise (AttributeError "_fields"), scalar_registered) /\
  register total = (Raise (ValueError_duplicate_parameter "sum"), scalar_registered) /\
  (register stats_unannotated).1 <> Raise (RuntimeError_duplicate_registrations add_Scalar).
Proof.
  repeat split. discriminate.
Qed.

(** C1, amended.  When an overload [o] already keys the table of mode
    [ty], registering in that mode raises.  With a callable the decorator
    accepts, registering [o] raises the duplicate-registration error that
    names [o], and registering any target whose expansion contains [o]
    raises the duplicate-registration error for one of the expanded
    overloads, which keys the table at that point.  With a callable whose
    adaptation fails, every registration raises the error of the adaptation
    and leaves the state as it was. *)
Theorem duplicate_registration_raises (rt : Runtime) (ty : DecompType)
    (o : OpOverload) (f : PyFunction) (disable_meta : bool) (st : Registry) :
  dict_contains (global_decomposition_table st ty) o = true ->
  match adapt_out f with
  | Return _ =>
      (register_decomposition rt (Leaf (Overload o)) (type_name ty) disable_meta f st).1
        = Raise (RuntimeError_duplicate_registrations o)
      /\ forall aten_op : PyTree AtenOp,
           o ∈ expanded_overloads rt aten_op ->
           exists o',
             o' ∈ expanded_overloads rt aten_op /\
             (register_decomposition rt aten_op (type_name ty) disable_meta f st).1
               = Raise (RuntimeError_duplicate_registrations o') /\
             dict_contains
               (global_decomposition_table
                  (register_decomposition rt aten_op (type_name ty) disable_meta f st).2 ty)
               o' = true
  | Raise e =>
      forall aten_op : PyTree AtenOp,
        register_decomposition rt aten_op (type_name ty) disable_meta f st = (Raise e, st)
  end.
Proof.
  intros Hdup. destruct (adapt_out f) as [fn|e] eqn:Hfn.
  - split.
    + rewrite register_decomposition_run, Hfn. simpl. rewrite Hdup. reflexivity.
    + intros aten_op Hin. rewrite register_decomposition_run, Hfn.
      destruct (insert_overloads_duplicate fn _ _ o Hin Hdup) as (o' & t & Hrun).
      rewrite Hrun. simpl. rewrite table_with_table.
      apply insert_overloads_Raise in Hrun
        as (pre & o'' & post & Hops & [= <-] & _ & Hkey & _).
      exists o'. rewrite Hops. split; [|split; [reflexivity | assumption]].
      apply elem_of_app. right. left.
  - intros aten_op. rewrite register_decomposition_run, Hfn. reflexivity.
Qed.

Lemma duplicate_registration_raises_witness :
  dict_contains (global_decomposition_table scalar_registered post_autograd) add_Scalar = true /\
  (register_decomposition aten (Leaf (Overload add_Scalar)) "post_autograd" false f2
     scalar_registered).1
    = Raise (RuntimeError_duplicate_registrations add_Scalar) /\
  register_decomposition aten (Leaf (Packet aten_add)) "post_autograd" false total
    scalar_registered = (Raise (ValueError_duplicate_parameter "sum"), scalar_registered).
Proof.
  split; [reflexivity|]. split.
  - apply (duplicate_registration_raises aten post_autograd add_Scalar f2
             false scalar_registered eq_refl).
  - apply (duplicate_registration_raises aten post_autograd add_Scalar total
             false scalar_registered eq_refl).
Defined.

(** The claim of C2 fails on a family: with [add.Scalar] registered,
    registering the packet [add] (overloads Tensor, Scalar, out) raises at
    [add.Scalar], after [add.Tensor] has been inserted; the table after the
    failed call has two entries where it had one. *)
Lemma failed_registration_not_atomic :
  let before := scalar_registered in
  let run :=
    register_decomposition aten (Leaf (Packet aten_add)) "post_autograd" false f2 before in
  dict_contains (decomposition_table before) add_Scalar = true /\
  expanded_overloads aten (Leaf (Packet aten_add)) = [add_Tensor; add_Scalar; add_out] /\
  run.1 = Raise (RuntimeError_duplicate_registrations add_Scalar) /\
  decomposition_table run.2 = [(add_Scalar, Body f1); (add_Tensor, Body f2)] /\
  decomposition_table run.2 <> decomposition_table before.
Proof.
  repeat split; try reflexivity. vm_compute. discriminate.
Qed.

(** C2, amended.  With a callable the decorator accepts, a registration
    whose expansion contains an overload [o] that is already a key fails as
    follows.  The expansion splits into [pre], [o'] and [post]: the
    overloads of [pre] are pairwise distinct and none of them was a key
    (so [o] is not among them); [o'] is a key once they are inserted, in
    the table or among [pre]; the call raises the duplicate-registration
    error for [o'] and leaves the table of the mode as it was, followed by
    one entry for each overload of [pre], in order.  When the target is
    [o] alone the state is exactly what it was before the call. *)
Theorem failed_registration_keeps_earlier_entries (rt : Runtime) (ty : DecompType)
    (o : OpOverload) (aten_op : PyTree AtenOp) (f : PyFunction) (fn : Callable)
    (disable_meta : bool) (st : Registry) :
  adapt_out f = Return fn ->
  o ∈ expanded_overloads rt aten_op ->
  dict_contains (global_decomposition_table st ty) o = true ->
  (exists pre o' post,
     expanded_overloads rt aten_op = pre ++ o' :: post /\
     NoDup pre /\
     Forall (fun p => dict_contains (global_decomposition_table st ty) p = false) pre /\
     (o ∉ pre) /\
     (dict_contains (global_decomposition_table st ty) o' = true \/ o' ∈ pre) /\
     register_decomposition rt aten_op (type_name ty) disable_meta f st =
       (Raise (RuntimeError_duplicate_registrations o'),
        with_table st ty (global_decomposition_table st ty ++ entries fn pre)))
  /\ (expanded_overloads rt aten_op = [o] ->
      register_decomposition rt aten_op (type_name ty) disable_meta f st =
        (Raise (RuntimeError_duplicate_registrations o), st)).
Proof.
  intros Hfn Hin Hdup. rewrite register_decomposition_run, Hfn. split.
  - destruct (insert_overloads_duplicate fn _ _ o Hin Hdup) as (o' & t & Hrun).
    rewrite Hrun.
    apply insert_overloads_Raise_prefix in Hrun
      as (pre & o'' & post & Hops & [= <-] & -> & Hkey & Hfresh & Hnd).
    exists pre, o', post. split; [assumption|]. split; [assumption|].
    split; [assumption|]. split; [|split; [|reflexivity]].
    + intros Hpre. rewrite Forall_forall in Hfresh. rewrite (Hfresh o Hpre) in Hdup.
      discriminate.
    + apply dict_contains_true in Hkey. rewrite dict_get_app in Hkey.
      destruct (dict_get (global_decomposition_table st ty) o') as [g|] eqn:Hget.
      * left. apply dict_contains_true. rewrite Hget. eauto.
      * right. destruct (decide (o' ∈ pre)) as [Hpre|Hpre]; [exact Hpre|].
        rewrite (dict_get_entries_None fn pre o' Hpre) in Hkey.
        destruct Hkey; discriminate.
  - intros ->. simpl. rewrite Hdup, with_table_same. reflexivity.
Qed.

Lemma failed_registration_keeps_earlier_entries_witness :
  adapt_out f2 = Return (Body f2) /\
  add_Scalar ∈ expanded_overloads aten (Leaf (Packet aten_add)) /\
  dict_contains (global_decomposition_table scalar_registered post_autograd) add_Scalar = true /\
  exists pre o' post,
    expanded_overloads aten (Leaf (Packet aten_add)) = pre ++ o' :: post /\
    NoDup pre /\
    Forall (fun p => dict_contains
                       (global_decomposition_table scalar_registered post_autograd) p
                     = false) pre /\
    (add_Scalar ∉ pre) /\
    (dict_contains (global_decomposition_table scalar_registered post_autograd) o' = true
     \/ o' ∈ pre) /\
    register_decomposition aten (Leaf (Packet aten_add)) "post_autograd" false f2 scalar_registered =
      (Raise (RuntimeError_duplicate_registrations o'),
       with_table scalar_registered post_autograd
         (global_decomposition_table scalar_registered post_autograd ++ entries (Body f2) pre)).
Proof.
  assert (Hin : add_Scalar ∈ expanded_overloads aten (Leaf (Packet aten_add))).
  { apply (bool_decide_unpack _). vm_compute. exact I. }
  split; [reflexivity|]. split; [exact Hin|]. split; [reflexivity|].
  apply (failed_registration_keeps_earlier_entries aten post_autograd add_Scalar
           (Leaf (Packet aten_add)) f2 (Body f2) false scalar_registered);
    [reflexivity | exact Hin | reflexivity].
Defined.

(** ** Families *)

(** C6. Registering a family whose member overloads are [o1], [o2], [o3]
    has the outcome of registering [o1], [o2] and [o3] one after the other:
    the same result and the same module state.  When the three are distinct
    and none keys the table yet, the registration returns the callable and
    every member maps to it, in the table and through [get_decompositions]. *)
Theorem family_registration_as_member_registrations (rt : Runtime)
    (ty : DecompType) (F : OpOverloadPacket) (o1 o2 o3 : OpOverload)
    (f : PyFunction) (disable_meta : bool) (st : Registry) :
  expand_overloads rt (Packet F) = [o1; o2; o3] ->
  let register target :=
    register_decomposition rt (Leaf target) (type_name ty) disable_meta f in
  register (Packet F) st =
    (do _ <- register (Overload o1) ;;
     do _ <- register (Overload o2) ;;
     register (Overload o3))%py st
  /\ forall fn,
       adapt_out f = Return fn ->
       NoDup [o1; o2; o3] ->
       Forall (fun o => dict_contains (global_decomposition_table st ty) o = false)
              [o1; o2; o3] ->
       exists st',
         register (Packet F) st = (Return fn, st') /\
         global_decomposition_table st' ty =
           global_decomposition_table st ty ++ [(o1, fn); (o2, fn); (o3, fn)] /\
         forall o, o ∈ [o1; o2; o3] ->
           dict_get (global_decomposition_table st' ty) o = Some fn /\
           get_decompositions [Overload o] (type_name ty) st' = (Return [(o, fn)], st').
Proof.
  intros HF register. subst register. cbv beta.
  assert (Hexp : expanded_overloads rt (Leaf (Packet F)) = [o1; o2; o3]).
  { unfold expanded_overloads. simpl tree_leaves.
    change ([Packet F] ≫= expand_overloads rt)
      with (expand_overloads rt (Packet F) ++ []).
    rewrite app_nil_r. exact HF. }
  split.
  - unfold bind. rewrite (register_decomposition_run rt ty (Leaf (Packet F))), Hexp.
    destruct (adapt_out f) as [fn|e] eqn:Hf.
    2:{ rewrite (register_decomposition_run rt ty (Leaf (Overload o1)) _ _ st), Hf.
        reflexivity. }
    rewrite (register_overload_run rt ty o1 _ f st fn Hf).
    set (t := global_decomposition_table st ty).
    cbn [insert_overloads].
    destruct (dict_contains t o1); [subst t; rewrite with_table_same; reflexivity|].
    rewrite (register_overload_run rt ty o2 _ f _ fn Hf), table_with_table.
    destruct (dict_contains (dict_set t o1 fn) o2); [reflexivity|].
    rewrite (register_overload_run rt ty o3 _ f _ fn Hf), table_with_table.
    rewrite !with_table_twice.
    destruct (dict_contains (dict_set (dict_set t o1 fn) o2 fn) o3); reflexivity.
  - intros fn Hf Hnd Hfresh.
    assert (Hfresh' : Forall (fun o => dict_get (global_decomposition_table st ty) o = None)
                             [o1; o2; o3]).
    { eapply Forall_impl; [exact Hfresh|]. intros o. apply dict_contains_false. }
    eexists. rewrite register_decomposition_run, Hf, Hexp.
    rewrite (insert_overloads_fresh fn _ _ Hnd Hfresh').
    split; [reflexivity|]. rewrite table_with_table.
    split; [reflexivity|]. intros o Ho.
    assert (Hget : dict_get (global_decomposition_table st ty ++ entries fn [o1; o2; o3]) o
                   = Some fn).
    { rewrite Forall_forall in Hfresh'. rewrite dict_get_app, (Hfresh' o Ho).
      apply dict_get_entries, Ho. }
    split; [exact Hget|].
    unfold get_decompositions. rewrite decomp_type_of_name, table_with_table.
    simpl. unfold bind, copy_entry, dict_getitem.
    assert (Hc : dict_contains (global_decomposition_table st ty ++ entries fn [o1; o2; o3]) o
                 = true).
    { apply dict_contains_true. rewrite Hget. eauto. }
    simpl in Hc, Hget. rewrite Hc, Hget. reflexivity.
Qed.

Lemma family_registration_as_member_registrations_witness :
  expand_overloads aten (Packet aten_add) = [add_Tensor; add_Scalar; add_out] /\
  register_decomposition aten (Leaf (Packet aten_add)) "post_autograd" false f1 empty_registry =
    (do _ <- register_decomposition aten (Leaf (Overload add_Tensor)) "post_autograd" false f1 ;;
     do _ <- register_decomposition aten (Leaf (Overload add_Scalar)) "post_autograd" false f1 ;;
     register_decomposition aten (Leaf (Overload add_out)) "post_autograd" false f1)%py
      empty_registry /\
  exists st',
    register_decomposition aten (Leaf (Packet aten_add)) "post_autograd" false f1 empty_registry =
      (Return (Body f1), st') /\
    decomposition_table st' =
      [(add_Tensor, Body f1); (add_Scalar, Body f1); (add_out, Body f1)].
Proof.
  destruct (family_registration_as_member_registrations aten post_autograd aten_add
              add_Tensor add_Scalar add_out f1 false empty_registry eq_refl)
    as [Hsame Hall].
  split; [reflexivity|]. split; [exact Hsame|].
  destruct (Hall (Body f1) eq_refl) as (st' & Hrun & Htable & _).
  - apply (bool_decide_unpack _). vm_compute. exact I.
  - repeat constructor.
  - exists st'. split; [exact Hrun | exact Htable].
Defined.

(** ** The disabled-meta set *)

(** [register_decomposition] never reads [disable_meta] and never writes
    [_disabled_meta_decomps]. *)
Lemma disable_meta_ignored (rt : Runtime) (aten_op : PyTree AtenOp) (type : string)
    (disable_meta : bool) (f : PyFunction) (st : Registry) :
  register_decomposition rt aten_op type disable_meta f st =
    register_decomposition rt aten_op type false f st /\
  _disabled_meta_decomps (register_decomposition rt aten_op type disable_meta f st).2 =
    _disabled_meta_decomps st.
Proof.
  split; [reflexivity|]. unfold register_decomposition.
  destruct (decomp_type_of type) as [ty|]; [|reflexivity].
  unfold on_table. destruct (decomposition_decorator _ _ _ _) as [r t]. simpl.
  apply disabled_with_table.
Qed.

(** C8 on the code.  Registering [add.Tensor] with [disable_meta=True] in
    the freshly imported module succeeds and inserts the overload into the
    post-autograd table, and [_disabled_meta_decomps] is still empty: the
    overload has not been added to it. *)
Theorem disable_meta_does_not_fill_disabled_set :
  let run :=
    register_decomposition aten (Leaf (Overload add_Tensor)) "post_autograd" true f1
      empty_registry in
  run.1 = Return (Body f1) /\
  decomposition_table run.2 = [(add_Tensor, Body f1)] /\
  _disabled_meta_decomps run.2 = [] /\
  add_Tensor ∉ _disabled_meta_decomps run.2.
Proof.
  repeat split. vm_compute. intros Hin. inversion Hin.
Qed.

(** ** Isolation of the tables *)

(** C9. A registration in mode [ty1], whatever its target and whether it
    returns or raises, leaves the table of every other mode [ty2] as it
    was; in particular the presence of an overload in that table and the
    callable it maps to are the same before and after. *)
Theorem registration_leaves_other_tables (rt : Runtime) (ty1 ty2 : DecompType)
    (aten_op : PyTree AtenOp) (disable_meta : bool) (f : PyFunction) (st : Registry) :
  ty1 <> ty2 ->
  let st' := (register_decomposition rt aten_op (type_name ty1) disable_meta f st).2 in
  global_decomposition_table st' ty2 = global_decomposition_table st ty2 /\
  forall o, dict_get (global_decomposition_table st' ty2) o =
            dict_get (global_decomposition_table st ty2) o.
Proof.
  intros Hne st'.
  assert (Heq : global_decomposition_table st' ty2 = global_decomposition_table st ty2).
  { subst st'. unfold register_decomposition. rewrite decomp_type_of_name.
    unfold on_table. destruct (decomposition_decorator _ _ _ _) as [r t]. simpl.
    apply table_with_table_ne, Hne. }
  split; [exact Heq|]. intros o. rewrite Heq. reflexivity.
Qed.

Lemma registration_leaves_other_tables_witness :
  post_autograd <> meta /\
  meta_table
    (register_decomposition aten (Leaf (Overload add_Tensor)) "post_autograd" false f1
       scalar_registered).2
  = meta_table scalar_registered.
Proof.
  split; [discriminate|].
  apply (registration_leaves_other_tables aten post_autograd meta
           (Leaf (Overload add_Tensor)) false f1 scalar_registered).
  discriminate.
Defined.

(** ** Output adaptation *)






(** ** Query *)

Section query_facts.
Implicit Types (registry decompositions : Table) (o : OpOverload).

(** The index groups the keys of the table by owning packet, in table
    order. *)
Lemma packets_to_overloads_get_from keys acc packet :
  dict_get
    (foldl (fun acc opo => defaultdict_append acc (overloadpacket opo) opo) acc keys)
    packet =
  match dict_get acc packet, filter (fun o => overloadpacket o = packet) keys with
  | Some ops, found => Some (ops ++ found)
  | None, [] => None
  | None, found => Some found
  end.
Proof.
  revert acc. induction keys as [|o keys IH]; intros acc; simpl.
  - destruct (dict_get acc packet); [rewrite app_nil_r|]; reflexivity.
  - rewrite IH. unfold defaultdict_append. rewrite dict_get_set.
    rewrite filter_cons.
    destruct (decide (packet = overloadpacket o)) as [->|Hne].
    + rewrite decide_True by reflexivity.
      destruct (dict_get acc (overloadpacket o)); [rewrite <- app_assoc|]; reflexivity.
    + rewrite decide_False by congruence. reflexivity.
Qed.

Lemma packets_to_overloads_get registry packet :
  dict_get (packets_to_overloads registry) packet =
  match filter (fun o => overloadpacket o = packet) (dict_keys registry) with
  | [] => None
  | found => Some found
  end.
Proof. unfold packets_to_overloads. rewrite packets_to_overloads_get_from. reflexivity. Qed.

(** Copying entries whose keys are all in the table never raises. *)
Lemma copy_entries registry ops decompositions :
  Forall (fun o => is_Some (dict_get registry o)) ops ->
  exists decompositions',
    for_each (copy_entry registry) ops decompositions = (Return tt, decompositions') /\
    forall o, dict_get decompositions' o =
      if bool_decide (o ∈ ops) then dict_get registry o else dict_get decompositions o.
Proof.
  revert decompositions. induction ops as [|o' ops IH]; intros decompositions Hin.
  - exists decompositions. split; [reflexivity|]. intros o.
    rewrite bool_decide_eq_false_2; [reflexivity | apply not_elem_of_nil].
  - inversion Hin as [|? ? [fn Hfn] Hin']; subst. simpl.
    unfold bind, copy_entry at 1, dict_getitem. rewrite Hfn.
    destruct (IH (dict_set decompositions o' fn) Hin') as (d' & Hrun & Hget).
    exists d'. split; [exact Hrun|]. intros o. rewrite Hget, dict_get_set.
    destruct (decide (o = o')) as [->|Hne].
    + rewrite (bool_decide_eq_true_2 (o' ∈ o' :: ops)) by left.
      destruct (bool_decide (o' ∈ ops)); congruence.
    + destruct (bool_decide (o ∈ ops)) eqn:Hops.
      * apply bool_decide_eq_true in Hops.
        rewrite bool_decide_eq_true_2 by (right; exact Hops). reflexivity.
      * apply bool_decide_eq_false in Hops.
        rewrite bool_decide_eq_false_2; [reflexivity|].
        apply not_elem_of_cons. auto.
Qed.

(** One requested item: it copies the table's entries for the overloads it
    asks for, and nothing else. *)
Lemma collect_run registry op decompositions :
  exists decompositions',
    collect registry (packets_to_overloads registry) op decompositions
      = (Return tt, decompositions') /\
    forall o, dict_get decompositions' o =
      if requests op o && dict_contains registry o
      then dict_get registry o else dict_get decompositions o.
Proof.
  destruct op as [o'|packet]; simpl.
  - destruct (dict_contains registry o') eqn:Hin.
    + apply dict_contains_true in Hin as [fn Hfn].
      unfold copy_entry, dict_getitem. rewrite Hfn. eexists. split; [reflexivity|].
      intros o. rewrite dict_get_set.
      destruct (decide (o = o')) as [->|Hne].
      * rewrite bool_decide_eq_true_2 by reflexivity. simpl.
        unfold dict_contains. rewrite bool_decide_eq_true_2 by (rewrite Hfn; eauto).
        symmetry. exact Hfn.
      * rewrite bool_decide_eq_false_2 by congruence. reflexivity.
    + exists decompositions. split; [reflexivity|]. intros o.
      destruct (bool_decide (o' = o)) eqn:Heq; [|reflexivity].
      apply bool_decide_eq_true in Heq as <-. rewrite Hin. reflexivity.
  - set (found := filter (fun o => overloadpacket o = packet) (dict_keys registry)).
    assert (Hfound : forall o, o ∈ found <->
              overloadpacket o = packet /\ is_Some (dict_get registry o)).
    { intros o. subst found. rewrite list_elem_of_filter, dict_get_keys. reflexivity. }
    unfold dict_contains at 1. rewrite packets_to_overloads_get. fold found.
    assert (Hreq : forall o, requests (Packet packet) o && dict_contains registry o
                             = bool_decide (o ∈ found)).
    { intros o. simpl. apply eq_true_iff_eq.
      rewrite andb_true_iff, !bool_decide_eq_true, dict_contains_true.
      symmetry. apply Hfound. }
    clearbody found. destruct found as [|o0 rest].
    + rewrite bool_decide_eq_false_2 by (intros [? ?]; discriminate).
      exists decompositions. split; [reflexivity|]. intros o.
      change (bool_decide (overloadpacket o = packet) && dict_contains registry o)
        with (requests (Packet packet) o && dict_contains registry o).
      rewrite Hreq. rewrite bool_decide_eq_false_2; [reflexivity | apply not_elem_of_nil].
    + rewrite bool_decide_eq_true_2 by eauto.
      destruct (copy_entries registry (o0 :: rest) decompositions)
        as (d' & Hrun & Hget).
      { apply Forall_forall. intros o Ho. apply Hfound in Ho. tauto. }
      exists d'. split; [exact Hrun|]. intros o. rewrite Hget.
      change (bool_decide (overloadpacket o = packet) && dict_contains registry o)
        with (requests (Packet packet) o && dict_contains registry o).
      rewrite Hreq. reflexivity.
Qed.

(** The whole second loop. *)
Lemma collect_all_run registry aten_ops decompositions :
  exists decompositions',
    for_each (collect registry (packets_to_overloads registry)) aten_ops decompositions
      = (Return tt, decompositions') /\
    forall o, dict_get decompositions' o =
      if existsb (fun op => requests op o) aten_ops && dict_contains registry o
      then dict_get registry o else dict_get decompositions o.
Proof.
  revert decompositions. induction aten_ops as [|op aten_ops IH]; intros decompositions.
  - exists decompositions. split; reflexivity.
  - simpl. unfold bind.
    destruct (collect_run registry op decompositions) as (d1 & Hrun1 & Hget1).
    rewrite Hrun1. destruct (IH d1) as (d' & Hrun & Hget).
    exists d'. split; [exact Hrun|]. intros o. rewrite Hget, Hget1.
    destruct (existsb (fun op0 => requests op0 o) aten_ops);
      destruct (requests op o); destruct (dict_contains registry o); reflexivity.
Qed.

End query_facts.

Lemma copy_entry_NoDup (registry : Table) (o : OpOverload) (decompositions : Table) :
  NoDup (dict_keys decompositions) ->
  NoDup (dict_keys (copy_entry registry o decompositions).2).
Proof.
  intros Hnd. unfold copy_entry. destruct (dict_getitem registry o); simpl;
    [apply dict_set_NoDup|]; assumption.
Qed.

Lemma collect_NoDup (registry : Table) index (op : AtenOp) (decompositions : Table) :
  NoDup (dict_keys decompositions) ->
  NoDup (dict_keys (collect registry index op decompositions).2).
Proof.
  intros Hnd. destruct op as [o|packet]; simpl.
  - destruct (dict_contains registry o); [apply copy_entry_NoDup|]; assumption.
  - destruct (dict_contains index packet); [|assumption].
    apply (for_each_invariant (fun d : Table => NoDup (dict_keys d))); [|assumption].
    intros o d. apply copy_entry_NoDup.
Qed.

(** [get_decompositions] in terms of owning packets: it returns, and the
    dictionary maps exactly the requested overloads that key the table to
    the table's callables. *)
Lemma get_decompositions_lookup (aten_ops : list AtenOp) (ty : DecompType) (st : Registry) :
  exists decompositions,
    get_decompositions aten_ops (type_name ty) st = (Return decompositions, st) /\
    NoDup (dict_keys decompositions) /\
    forall o, dict_get decompositions o =
      if existsb (fun op => requests op o) aten_ops
      then dict_get (global_decomposition_table st ty) o else None.
Proof.
  unfold get_decompositions. rewrite decomp_type_of_name.
  set (registry := global_decomposition_table st ty).
  pose proof (for_each_invariant (fun d : Table => NoDup (dict_keys d))
                (collect registry (packets_to_overloads registry)) aten_ops
                (fun op d => collect_NoDup registry _ op d) [] (NoDup_nil_2)) as Hnd.
  destruct (collect_all_run registry aten_ops []) as (d & Hrun & Hget).
  rewrite Hrun in Hnd |- *. exists d. split; [reflexivity|]. split; [exact Hnd|].
  intros o. rewrite Hget. simpl.
  destruct (existsb _ aten_ops); [|reflexivity]. simpl.
  destruct (dict_contains registry o) eqn:Hin; [reflexivity|].
  apply dict_contains_false in Hin. congruence.
Qed.

(** C7. [get_decompositions] returns without raising, and the dictionary
    it returns holds exactly the entries found in the table of the mode: an
    overload maps to a callable in the result exactly when it maps to that
    callable in the table and it was requested, either itself or through a
    family it is a member of.  Requested overloads and members that are not
    in the table are absent from the result.  The hosting runtime is
    assumed coherent on what is asked: for a requested family and an
    overload of the table, being enumerated by the family and being owned
    by it are the same. *)
Theorem get_decompositions_exact (rt : Runtime) (aten_ops : list AtenOp)
    (ty : DecompType) (st : Registry) :
  (forall F o, Packet F ∈ aten_ops ->
     is_Some (dict_get (global_decomposition_table st ty) o) ->
     (o ∈ expand_overloads rt (Packet F) <-> overloadpacket o = F)) ->
  exists decompositions,
    get_decompositions aten_ops (type_name ty) st = (Return decompositions, st) /\
    NoDup (dict_keys decompositions) /\
    forall o fn,
      dict_get decompositions o = Some fn <->
      dict_get (global_decomposition_table st ty) o = Some fn /\
      (Overload o ∈ aten_ops \/
       exists F, Packet F ∈ aten_ops /\ o ∈ expand_overloads rt (Packet F)).
Proof.
  intros Hcoherent.
  destruct (get_decompositions_lookup aten_ops ty st) as (d & Hrun & Hnd & Hget).
  exists d. split; [exact Hrun|]. split; [exact Hnd|].
  intros o fn. rewrite Hget.
  destruct (existsb (fun op => requests op o) aten_ops) eqn:Hreq.
  - apply existsb_exists in Hreq as (op & Hop & Hasks).
    apply list_elem_of_In in Hop.
    split; [|tauto]. intros Hfn. split; [exact Hfn|].
    destruct op as [o'|F]; simpl in Hasks; apply bool_decide_eq_true in Hasks.
    + subst o'. left. exact Hop.
    + right. exists F. split; [exact Hop|].
      apply Hcoherent; [exact Hop | rewrite Hfn; eauto | exact Hasks].
  - split; [discriminate|]. intros [Hfn Hasked]. exfalso.
    apply not_true_iff_false in Hreq. apply Hreq, existsb_exists.
    destruct Hasked as [Hop | (F & Hop & Hmem)].
    + exists (Overload o). split; [apply list_elem_of_In, Hop|].
      simpl. apply bool_decide_eq_true. reflexivity.
    + exists (Packet F). split; [apply list_elem_of_In, Hop|].
      simpl. apply bool_decide_eq_true.
      apply Hcoherent; [exact Hop | rewrite Hfn; eauto | exact Hmem].
Qed.

Lemma get_decompositions_exact_witness :
  (forall F o, Packet F ∈ [Packet aten_add; Overload mul_default] ->
     is_Some (dict_get (global_decomposition_table partly_registered post_autograd) o) ->
     (o ∈ expand_overloads aten (Packet F) <-> overloadpacket o = F)) /\
  exists decompositions,
    get_decompositions [Packet aten_add; Overload mul_default] "post_autograd"
      partly_registered = (Return decompositions, partly_registered) /\
    dict_get decompositions add_Tensor = Some (Body f1) /\
    dict_get decompositions add_Scalar = Some (Body f1) /\
    dict_get decompositions add_out = None /\
    dict_get decompositions mul_default = None.
Proof.
  assert (Hcoherent : forall F o,
            Packet F ∈ [Packet aten_add; Overload mul_default] ->
            is_Some (dict_get (global_decomposition_table partly_registered post_autograd) o) ->
            (o ∈ expand_overloads aten (Packet F) <-> overloadpacket o = F)).
  { intros F o HF Ho.
    apply elem_of_cons in HF as [HF|HF].
    - injection HF as ->. simpl in Ho.
      destruct (decide (o = add_Tensor)) as [->|];
        [|destruct (decide (o = add_Scalar)) as [->|]; [|destruct Ho; discriminate]].
      + split; intros _; [reflexivity|]. apply (bool_decide_unpack _). vm_compute. exact I.
      + split; intros _; [reflexivity|]. apply (bool_decide_unpack _). vm_compute. exact I.
    - apply list_elem_of_singleton in HF. discriminate. }
  split; [exact Hcoherent|].
  destruct (get_decompositions_exact aten [Packet aten_add; Overload mul_default]
              post_autograd partly_registered Hcoherent) as (d & Hrun & _ & Hexact).
  assert (Hfamily : Packet aten_add ∈ [Packet aten_add; Overload mul_default]) by left.
  exists d. split; [exact Hrun|]. repeat split.
  - apply Hexact. split; [reflexivity|]. right. exists aten_add. split; [exact Hfamily|].
    apply (bool_decide_unpack _). vm_compute. exact I.
  - apply Hexact. split; [reflexivity|]. right. exists aten_add. split; [exact Hfamily|].
    apply (bool_decide_unpack _). vm_compute. exact I.
  - destruct (dict_get d add_out) as [fn|] eqn:Hget; [|reflexivity].
    apply Hexact in Hget as [Hin _]. vm_compute in Hin. discriminate.
  - destruct (dict_get d mul_default) as [fn|] eqn:Hget; [|reflexivity].
    apply Hexact in Hget as [Hin _]. vm_compute in Hin. discriminate.
Defined.

(** ** Activation *)

Section activation_facts.
Context (rt : Runtime) (dispatcher : Dispatcher).
Implicit Types (registry table : Table) (o : OpOverload) (fn : Callable).

(** Merging a list of keys of [registry] into the working table: keys
    already present are kept, the others get the callable of [registry]. *)
Lemma merge_keys_run registry keys table :
  Forall (fun o => is_Some (dict_get registry o)) keys ->
  NoDup (dict_keys table) ->
  exists table',
    for_each
      (fun opo activate_meta_table =>
         if dict_contains activate_meta_table opo then (Return tt, activate_meta_table)
         else
           match dict_getitem registry opo with
           | Return fn => (Return tt, dict_set activate_meta_table opo fn)
           | Raise e => (Raise e, activate_meta_table)
           end)
      keys table = (Return tt, table') /\
    NoDup (dict_keys table') /\
    forall o, dict_get table' o =
      match dict_get table o with
      | Some fn => Some fn
      | None => if bool_decide (o ∈ keys) then dict_get registry o else None
      end.
Proof.
  revert table. induction keys as [|k keys IH]; intros table Hkeys Hnd.
  - exists table. split; [reflexivity|]. split; [assumption|]. intros o.
    rewrite bool_decide_eq_false_2 by apply not_elem_of_nil.
    destruct (dict_get table o); reflexivity.
  - apply Forall_cons in Hkeys as [[fn Hfn] Hkeys]. simpl. unfold bind.
    destruct (dict_contains table k) eqn:Hin.
    + destruct (IH table Hkeys Hnd) as (table' & Hrun & Hnd' & Hget).
      exists table'. split; [exact Hrun|]. split; [exact Hnd'|].
      intros o. rewrite Hget. destruct (dict_get table o) as [g|] eqn:Ho; [reflexivity|].
      assert (Hne : o <> k).
      { intros ->. apply dict_contains_true in Hin as [? Hin]. congruence. }
      destruct (bool_decide (o ∈ keys)) eqn:Hk.
      * apply bool_decide_eq_true in Hk.
        rewrite bool_decide_eq_true_2 by (right; exact Hk). reflexivity.
      * apply bool_decide_eq_false in Hk.
        rewrite bool_decide_eq_false_2; [reflexivity|]. apply not_elem_of_cons. auto.
    + unfold dict_getitem. rewrite Hfn.
      destruct (IH (dict_set table k fn) Hkeys (dict_set_NoDup _ _ _ Hnd))
        as (table' & Hrun & Hnd' & Hget).
      exists table'. split; [exact Hrun|]. split; [exact Hnd'|].
      intros o. rewrite Hget, dict_get_set.
      apply dict_contains_false in Hin.
      destruct (decide (o = k)) as [->|Hne].
      * rewrite Hin, bool_decide_eq_true_2 by left. symmetry. exact Hfn.
      * destruct (dict_get table o); [reflexivity|].
        destruct (bool_decide (o ∈ keys)) eqn:Hk.
        -- apply bool_decide_eq_true in Hk.
           rewrite bool_decide_eq_true_2 by (right; exact Hk). reflexivity.
        -- apply bool_decide_eq_false in Hk.
           rewrite bool_decide_eq_false_2; [reflexivity|]. apply not_elem_of_cons. auto.
Qed.

Lemma merge_registry_run registry table :
  NoDup (dict_keys table) ->
  exists table',
    merge_registry registry table = (Return tt, table') /\
    NoDup (dict_keys table') /\
    forall o, dict_get table' o =
      match dict_get table o with
      | Some fn => Some fn
      | None => dict_get registry o
      end.
Proof.
  intros Hnd. unfold merge_registry.
  destruct (merge_keys_run registry (dict_keys registry) table) as (t & Hrun & Hnd' & Hget).
  { apply Forall_forall. intros o. apply dict_get_keys. }
  { exact Hnd. }
  exists t. split; [exact Hrun|]. split; [exact Hnd'|]. intros o. rewrite Hget.
  destruct (dict_get table o); [reflexivity|].
  destruct (bool_decide (o ∈ dict_keys registry)) eqn:Hk; [reflexivity|].
  apply bool_decide_eq_false in Hk. rewrite <- dict_get_keys in Hk.
  apply eq_None_not_Some in Hk. congruence.
Qed.

(** The merged table: first the meta table, then what the post-autograd
    table adds, then what the pre-autograd table adds. *)
Lemma build_activate_meta_table_run st :
  exists table,
    build_activate_meta_table st [] = (Return tt, table) /\
    NoDup (dict_keys table) /\
    forall o, dict_get table o =
      match dict_get (meta_table st) o with
      | Some fn => Some fn
      | None =>
          match dict_get (decomposition_table st) o with
          | Some fn => Some fn
          | None => dict_get (pre_autograd_decomposition_table st) o
          end
      end.
Proof.
  unfold build_activate_meta_table. simpl. unfold bind.
  destruct (merge_registry_run (meta_table st) []) as (t1 & Hrun1 & Hnd1 & Hget1);
    [apply NoDup_nil_2|].
  destruct (merge_registry_run (decomposition_table st) t1 Hnd1) as (t2 & Hrun2 & Hnd2 & Hget2).
  destruct (merge_registry_run (pre_autograd_decomposition_table st) t2 Hnd2)
    as (t3 & Hrun3 & Hnd3 & Hget3).
  rewrite Hrun1, Hrun2, Hrun3. exists t3. split; [reflexivity|]. split; [exact Hnd3|].
  intros o. rewrite Hget3, Hget2, Hget1. simpl.
  destruct (dict_get (meta_table st) o); [reflexivity|].
  destruct (dict_get (decomposition_table st) o); reflexivity.
Qed.

(** Issuing calls one after the other: the calls that returned are a
    prefix of the calls to issue, all of them when none is refused; a
    refusal is the exception of the run. *)
Lemma emit_all_run (cs history : list DispatchCall) :
  exists issued rest,
    cs = issued ++ rest /\
    (for_each (emit dispatcher) cs history).2 = history ++ issued /\
    match (for_each (emit dispatcher) cs history).1 with
    | Return _ => rest = []
    | Raise e =>
        exists c rest', rest = c :: rest' /\
                        refuses dispatcher (history ++ issued) c = Some e
    end.
Proof.
  revert history. induction cs as [|c cs IH]; intros history.
  - exists [], []. simpl. rewrite app_nil_r. repeat split.
  - simpl. unfold bind, emit at 1 3.
    destruct (refuses dispatcher history c) as [e|] eqn:Hc.
    + exists [], (c :: cs). simpl. rewrite app_nil_r.
      split; [reflexivity|]. split; [reflexivity|]. eauto.
    + destruct (IH (history ++ [c])) as (issued & rest & -> & Hstate & Hout).
      exists (c :: issued), rest. rewrite <- app_assoc in *. simpl in *.
      split; [reflexivity|]. split; [exact Hstate | exact Hout].
Qed.

Lemma activate_entry_emit entry calls :
  activate_entry rt dispatcher entry calls =
  for_each (emit dispatcher) (entry_calls rt entry) calls.
Proof.
  destruct entry as [o fn]. unfold activate_entry, entry_calls, installable. simpl.
  unfold bind.
  destruct (emit dispatcher (py_impl o Meta fn) calls) as [[[]|e] s1]; [|reflexivity].
  destruct (emit dispatcher (dispatch_dump (dispatch_name o)) s1) as [[[]|e] s2];
    [|reflexivity].
  destruct (contains _ (_dispatch_dump rt (dispatch_name o))); simpl; [reflexivity|].
  destruct (is_view_op o); simpl; [reflexivity|].
  unfold bind.
  destruct (emit dispatcher (meta_lib_impl o fn) s2) as [[[]|e] s3]; reflexivity.
Qed.

(** The second loop issues the calls of each entry, in table order. *)
Lemma activate_entries_emit table calls :
  for_each (activate_entry rt dispatcher) table calls =
  for_each (emit dispatcher) (table ≫= entry_calls rt) calls.
Proof.
  revert calls. induction table as [|entry table IH]; intros calls; [reflexivity|].
  rewrite bind_cons, for_each_app. cbn [for_each].
  apply bind_ext; [apply activate_entry_emit | intros _ s'; apply IH].
Qed.

(** A pass of [activate_meta] from the calls the dispatcher has accepted
    before: the working table, and the calls of its entries that returned. *)
Lemma activate_meta_outcome st history :
  exists table issued rest,
    build_activate_meta_table st [] = (Return tt, table) /\
    NoDup (dict_keys table) /\
    (forall o, dict_get table o =
       match dict_get (meta_table st) o with
       | Some fn => Some fn
       | None =>
           match dict_get (decomposition_table st) o with
           | Some fn => Some fn
           | None => dict_get (pre_autograd_decomposition_table st) o
           end
       end) /\
    table ≫= entry_calls rt = issued ++ rest /\
    (activate_meta rt dispatcher st history).2 = history ++ issued /\
    match (activate_meta rt dispatcher st history).1 with
    | Return _ => rest = []
    | Raise e =>
        exists c rest', rest = c :: rest' /\
                        refuses dispatcher (history ++ issued) c = Some e
    end.
Proof.
  destruct (build_activate_meta_table_run st) as (table & Hbuild & Hnd & Hget).
  destruct (emit_all_run (table ≫= entry_calls rt) history)
    as (issued & rest & Hsplit & Hstate & Hout).
  exists table, issued, rest. unfold activate_meta. rewrite Hbuild.
  rewrite activate_entries_emit. auto 10.
Qed.

(** An install call in the trace comes from an installable entry. *)
Lemma meta_lib_impl_in_calls table o fn :
  meta_lib_impl o fn ∈ table ≫= entry_calls rt <->
  (o, fn) ∈ table /\ installable rt o = true.
Proof.
  rewrite list_elem_of_bind. split.
  - intros ([o' fn'] & Hcall & Hentry). unfold entry_calls in Hcall. simpl in Hcall.
    apply elem_of_cons in Hcall as [Hcall|Hcall]; [discriminate|].
    apply elem_of_cons in Hcall as [Hcall|Hcall]; [discriminate|].
    destruct (installable rt o') eqn:Hok; [|inversion Hcall].
    apply list_elem_of_singleton in Hcall. injection Hcall as -> ->. auto.
  - intros [Hentry Hok]. exists (o, fn). split; [|exact Hentry].
    unfold entry_calls. simpl. rewrite Hok. right. right. left.
Qed.

Lemma py_impl_in_calls table o fn :
  py_impl o Meta fn ∈ table ≫= entry_calls rt <-> (o, fn) ∈ table.
Proof.
  rewrite list_elem_of_bind. split.
  - intros ([o' fn'] & Hcall & Hentry). unfold entry_calls in Hcall. simpl in Hcall.
    apply elem_of_cons in Hcall as [Hcall|Hcall]; [injection Hcall as -> ->; exact Hentry|].
    apply elem_of_cons in Hcall as [Hcall|Hcall]; [discriminate|].
    destruct (installable rt o'); [|inversion Hcall].
    apply list_elem_of_singleton in Hcall. discriminate.
  - intros Hentry. exists (o, fn). split; [left | exact Hentry].
Qed.

End activation_facts.


(** Membership in a list written out. *)
Ltac find_entry := first [left | right; find_entry].

(** C3. The working table of [activate_meta] takes an overload's callable
    from the meta table, else from the post-autograd table, else from the
    pre-autograd table.  So for an overload registered with [f_meta] as meta
    and with a different [f_post] after autograd, the working table holds
    [f_meta]; in every pass, whatever the dispatcher accepted before and
    whether the pass returns or a dispatcher call raises, every install
    call made for the overload carries [f_meta] and none carries [f_post];
    and a pass that returns has made the install call with [f_meta] unless
    the overload is excluded. *)
Theorem activation_prefers_meta (rt : Runtime) (dispatcher : Dispatcher)
    (st : Registry) (o : OpOverload) (f_meta f_post : Callable)
    (history : list DispatchCall) :
  dict_get (meta_table st) o = Some f_meta ->
  dict_get (decomposition_table st) o = Some f_post ->
  f_meta <> f_post ->
  exists activate_meta_table issued,
    build_activate_meta_table st [] = (Return tt, activate_meta_table) /\
    (forall o', dict_get activate_meta_table o' =
       match dict_get (meta_table st) o' with
       | Some fn => Some fn
       | None =>
           match dict_get (decomposition_table st) o' with
           | Some fn => Some fn
           | None => dict_get (pre_autograd_decomposition_table st) o'
           end
       end) /\
    dict_get activate_meta_table o = Some f_meta /\
    (activate_meta rt dispatcher st history).2 = history ++ issued /\
    (forall fn, meta_lib_impl o fn ∈ issued -> fn = f_meta) /\
    (meta_lib_impl o f_post ∉ issued) /\
    ((activate_meta rt dispatcher st history).1 = Return tt ->
     installable rt o = true -> meta_lib_impl o f_meta ∈ issued).
Proof.
  intros Hmeta Hpost Hne.
  destruct (activate_meta_outcome rt dispatcher st history)
    as (table & issued & rest & Hbuild & Hnd & Hget & Hsplit & Hstate & Hout).
  exists table, issued.
  assert (Ho : dict_get table o = Some f_meta) by (rewrite Hget, Hmeta; reflexivity).
  assert (Honly : forall fn, meta_lib_impl o fn ∈ issued -> fn = f_meta).
  { intros fn Hcall.
    assert (Hfull : meta_lib_impl o fn ∈ table ≫= entry_calls rt)
      by (rewrite Hsplit; apply elem_of_app; left; exact Hcall).
    apply meta_lib_impl_in_calls in Hfull as [Hentry _].
    apply (dict_get_NoDup _ _ _ Hnd) in Hentry. congruence. }
  split; [exact Hbuild|]. split; [exact Hget|]. split; [exact Ho|].
  split; [exact Hstate|]. split; [exact Honly|]. split.
  - intros Hcall. apply Honly in Hcall. congruence.
  - intros Hret Hok. rewrite Hret in Hout. subst rest. rewrite app_nil_r in Hsplit.
    rewrite <- Hsplit. apply meta_lib_impl_in_calls. split; [|exact Hok].
    apply dict_get_elem, Ho.
Qed.

Lemma activation_prefers_meta_witness :
  dict_get (meta_table loaded) add_Tensor = Some (Body f2) /\
  dict_get (decomposition_table loaded) add_Tensor = Some (Body f1) /\
  Body f2 <> Body f1 /\
  meta_lib_impl add_Tensor (Body f2) ∈ (activate_meta aten strict loaded []).2 /\
  (meta_lib_impl add_Tensor (Body f1) ∉ (activate_meta aten strict loaded []).2).
Proof.
  assert (Hne : Body f2 <> Body f1) by discriminate.
  split; [reflexivity|]. split; [reflexivity|]. split; [exact Hne|].
  destruct (activation_prefers_meta aten strict loaded add_Tensor (Body f2) (Body f1) []
              eq_refl eq_refl Hne)
    as (table & issued & _ & _ & _ & Hstate & _ & Hnot & Hinstalled).
  rewrite Hstate. simpl. split; [|exact Hnot].
  apply Hinstalled; reflexivity.
Defined.




(** The claim of C10 fails when the dispatcher refuses a call.  [add.Tensor]
    already has a Python kernel for the Meta key; the pass raises at its
    [py_impl] call, and the view operator, a later entry of the working
    table that the read-only-alias rule excludes, gets no [py_impl]
    registration. *)
Lemma later_entry_gets_no_py_impl :
  let history := [py_impl add_Tensor Meta (Body f1)] in
  let run := activate_meta aten strict loaded history in
  (view_default, Body f1) ∈ (build_activate_meta_table loaded []).2 /\
  is_view_op view_default = true /\
  run.1 = Raise (RuntimeError "Trying to override a python impl for Meta") /\
  (py_impl view_default Meta (Body f1) ∉ run.2).
Proof.
  repeat split.
  - vm_compute. find_entry.
  - vm_compute. intros Hin.
    apply list_elem_of_singleton in Hin. discriminate.
Qed.

(** C10, amended.  The calls of a pass that returned are, in the order of
    the working table, those of its entries: for each entry the [py_impl]
    registration for the Meta key, then the dump query, then the install
    call unless an exclusion rule applies.  When a dispatcher call raises,
    the pass stops there and the calls that returned are the ones before
    it.  So in a pass that returns every entry has received its [py_impl]
    registration, followed by the dump query for its name, also an entry
    that is excluded; and in every pass an excluded entry receives no
    install call. *)
Theorem py_impl_before_exclusion_rules (rt : Runtime) (dispatcher : Dispatcher)
    (st : Registry) (history : list DispatchCall) :
  let run := activate_meta rt dispatcher st history in
  exists activate_meta_table issued rest,
    build_activate_meta_table st [] = (Return tt, activate_meta_table) /\
    run.2 = history ++ issued /\
    activate_meta_table ≫= entry_calls rt = issued ++ rest /\
    (run.1 = Return tt -> rest = []) /\
    (forall e, run.1 = Raise e ->
       exists c rest', rest = c :: rest' /\ refuses dispatcher run.2 c = Some e) /\
    forall o fn,
      let qualified_name :=
        if decide (overload_name (_schema o) = "") then name (_schema o)
        else String.append (name (_schema o))
               (String.append "." (overload_name (_schema o))) in
      (o, fn) ∈ activate_meta_table ->
      (run.1 = Return tt ->
       exists before after,
         issued = before ++ py_impl o Meta fn :: dispatch_dump qualified_name :: after) /\
      (contains "CompositeImplicitAutograd" (_dispatch_dump rt qualified_name) = true \/
       is_view_op o = true ->
       (forall g, meta_lib_impl o g ∉ issued) /\
       (run.1 = Return tt -> py_impl o Meta fn ∈ issued)).
Proof.
  intros run. subst run.
  destruct (activate_meta_outcome rt dispatcher st history)
    as (table & issued & rest & Hbuild & _ & _ & Hsplit & Hstate & Hout).
  exists table, issued, rest.
  split; [exact Hbuild|]. split; [exact Hstate|]. split; [exact Hsplit|].
  assert (Hall : (activate_meta rt dispatcher st history).1 = Return tt ->
                 issued = table ≫= entry_calls rt).
  { intros Hret. rewrite Hret in Hout. subst rest. rewrite app_nil_r in Hsplit.
    symmetry. exact Hsplit. }
  split; [intros Hret; rewrite Hret in Hout; exact Hout|]. split.
  { intros e He. rewrite He in Hout. rewrite Hstate. exact Hout. }
  intros o fn qualified_name Hentry.
  change qualified_name with (dispatch_name o). clear qualified_name. split.
  - intros Hret. rewrite (Hall Hret).
    apply list_elem_of_split in Hentry as (t1 & t2 & ->).
    exists (t1 ≫= entry_calls rt).
    exists ((if installable rt o then [meta_lib_impl o fn] else [])
              ++ (t2 ≫= entry_calls rt)).
    rewrite bind_app. reflexivity.
  - intros Hexcluded. split.
    + intros g Hcall.
      assert (Hfull : meta_lib_impl o g ∈ table ≫= entry_calls rt)
        by (rewrite Hsplit; apply elem_of_app; left; exact Hcall).
      apply meta_lib_impl_in_calls in Hfull as [_ Hok].
      unfold installable in Hok. apply andb_true_iff in Hok as [Hdump Hview].
      apply negb_true_iff in Hdump, Hview. destruct Hexcluded; congruence.
    + intros Hret. rewrite (Hall Hret). apply py_impl_in_calls, Hentry.
Qed.

Lemma py_impl_before_exclusion_rules_witness :
  let run := activate_meta aten strict loaded [] in
  run.1 = Return tt /\
  (exists before after,
     run.2 = before ++ py_impl add_Tensor Meta (Body f2)
                    :: dispatch_dump "aten::add.Tensor" :: after) /\
  py_impl view_default Meta (Body f1) ∈ run.2 /\
  py_impl linear_default Meta (Body f1) ∈ run.2 /\
  (forall g, meta_lib_impl view_default g ∉ run.2) /\
  (forall g, meta_lib_impl linear_default g ∉ run.2).
Proof.
  intros run.
  destruct (py_impl_before_exclusion_rules aten strict loaded [])
    as (table & issued & rest & Hbuild & Hstate & _ & _ & _ & Hall).
  fold run in Hstate. rewrite Hstate. simpl.
  vm_compute in Hbuild. injection Hbuild as <-.
  assert (Hret : run.1 = Return tt) by reflexivity.
  assert (Hview : (forall g, meta_lib_impl view_default g ∉ issued) /\
                  (run.1 = Return tt -> py_impl view_default Meta (Body f1) ∈ issued)).
  { apply (Hall view_default (Body f1)); [find_entry | right; reflexivity]. }
  assert (Hlinear : (forall g, meta_lib_impl linear_default g ∉ issued) /\
                    (run.1 = Return tt -> py_impl linear_default Meta (Body f1) ∈ issued)).
  { apply (Hall linear_default (Body f1)); [find_entry | left; reflexivity]. }
  destruct Hview as [Hv1 Hv2], Hlinear as [Hl1 Hl2].
  split; [exact Hret|]. split.
  { destruct (Hall add_Tensor (Body f2)) as [Hadd _]; [find_entry|].
    exact (Hadd Hret). }
  split; [exact (Hv2 Hret)|]. split; [exact (Hl2 Hret)|].
  split; assumption.
Defined.

(** ** The end-to-end scenario *)

(** [add.Tensor] is registered with [f1] after autograd and with [f2] as
    meta: activation installs [f2] for it, once; the view operator and the
    operator with a composite kernel get their [py_impl] registration and
    no install call. *)
Example activate_meta_end_to_end :
  activate_meta aten strict loaded [] =
    (Return tt,
     [ py_impl add_Tensor Meta (Body f2); dispatch_dump "aten::add.Tensor";
       meta_lib_impl add_Tensor (Body f2);
       py_impl view_default Meta (Body f1); dispatch_dump "aten::view";
       py_impl linear_default Meta (Body f1); dispatch_dump "aten::linear";
       py_impl mul_default Meta (Body f1); dispatch_dump "aten::mul";
       meta_lib_impl mul_default (Body f1) ]).
Proof. reflexivity. Qed.

(** A second pass is refused at its first call and adds nothing. *)
Example activate_meta_twice :
  let first := activate_meta aten strict loaded [] in
  activate_meta aten strict loaded first.2 =
    (Raise (RuntimeError "Trying to override a python impl for Meta"), first.2).
Proof. reflexivity. Qed.

(** A result field named like a parameter is refused when the wrapper's
    signature is built. *)
Example adapt_out_name_clash :
  adapt_out total = Raise (ValueError_duplicate_parameter "sum").
Proof. reflexivity. Qed.

(** A partly registered family is reported as it is. *)
Example get_decompositions_partial_family :
  get_decompositions [Packet aten_add] "post_autograd" partly_registered =
    (Return [(add_Tensor, Body f1); (add_Scalar, Body f1)], partly_registered).
Proof. reflexivity. Qed.

(** A mode outside the three names fails the assertion. *)
Example get_decompositions_unknown_type :
  (get_decompositions [Packet aten_add] "autograd" partly_registered).1
    = Raise AssertionError.
Proof. reflexivity. Qed.

(** * Further properties *)

(** ** Registration: outcome, invariants, composition *)

Section registration_more.
Context (rt : Runtime).
Implicit Types (fn : Callable) (registry : Table) (ops : list OpOverload).

(** The loop only ever appends: its final table is the initial one
    followed by entries for a prefix of the overloads. *)
Lemma insert_overloads_extends fn ops registry :
  exists pre post,
    ops = pre ++ post /\
    (insert_overloads fn ops registry).2 = registry ++ entries fn pre.
Proof.
  destruct (insert_overloads fn ops registry) as [[[]|e] t] eqn:Hrun.
  - apply insert_overloads_Return in Hrun as (-> & _ & _).
    exists ops, []. rewrite app_nil_r. split; reflexivity.
  - apply insert_overloads_Raise in Hrun as (pre & o & post & -> & _ & -> & _).
    exists pre, (o :: post). split; reflexivity.
Qed.

Lemma insert_overloads_NoDup fn ops registry :
  NoDup (dict_keys registry) ->
  NoDup (dict_keys (insert_overloads fn ops registry).2).
Proof.
  revert registry. induction ops as [|o ops IH]; intros registry Hnd; simpl.
  - exact Hnd.
  - destruct (dict_contains registry o); [exact Hnd|].
    apply IH, dict_set_NoDup, Hnd.
Qed.

(** The state a registration call leaves, for any [type]: the state
    before, with the table of the mode extended by the loop. *)
Lemma register_decomposition_state aten_op type disable_meta f st :
  let st' := (register_decomposition rt aten_op type disable_meta f st).2 in
  st' = st \/
  exists ty fn,
    decomp_type_of type = Some ty /\ adapt_out f = Return fn /\
    st' = with_table st ty
            (insert_overloads fn (expanded_overloads rt aten_op)
               (global_decomposition_table st ty)).2.
Proof.
  unfold register_decomposition.
  destruct (decomp_type_of type) as [ty|] eqn:Hty; [|left; reflexivity].
  unfold on_table, decomposition_decorator, bind, lift, ret.
  destruct (adapt_out f) as [fn|e] eqn:Hf.
  - right. exists ty, fn. rewrite tree_map_add_op_to_table.
    destruct (insert_overloads fn _ _) as [[[]|e] t]; simpl; auto.
  - left. simpl. apply with_table_same.
Qed.

End registration_more.

(** X1. A registration call that gets past adaptation returns exactly when
    the expanded overloads are pairwise distinct and none of them keys the
    table; it then appends one entry per expanded overload, in expansion
    order.  Otherwise it raises the duplicate-registration error for one of
    the expanded overloads: so a target that mentions an overload twice
    fails even on an empty table. *)
Theorem registration_returns_iff_fresh (rt : Runtime) (ty : DecompType)
    (aten_op : PyTree AtenOp) (f : PyFunction) (fn : Callable)
    (disable_meta : bool) (st : Registry) :
  adapt_out f = Return fn ->
  let ops := expanded_overloads rt aten_op in
  let table := global_decomposition_table st ty in
  let fresh := NoDup ops /\ Forall (fun o => dict_get table o = None) ops in
  (fresh ->
   register_decomposition rt aten_op (type_name ty) disable_meta f st =
     (Return fn, with_table st ty (table ++ entries fn ops))) /\
  (~ fresh ->
   exists o st',
     o ∈ ops /\
     register_decomposition rt aten_op (type_name ty) disable_meta f st =
       (Raise (RuntimeError_duplicate_registrations o), st')).
Proof.
  intros Hf ops table fresh. rewrite register_decomposition_run, Hf.
  fold ops table. split.
  - intros [Hnd Hfresh]. rewrite (insert_overloads_fresh fn ops table Hnd Hfresh).
    reflexivity.
  - intros Hnot. destruct (insert_overloads fn ops table) as [[[]|e] t] eqn:Hrun.
    + apply insert_overloads_Return in Hrun as (_ & Hnd & Hfresh).
      exfalso. apply Hnot. split; assumption.
    + apply insert_overloads_Raise in Hrun as (pre & o & post & Hops & -> & _).
      exists o, (with_table st ty t). split; [|reflexivity].
      rewrite Hops. apply elem_of_app. right. left.
Qed.

Lemma registration_returns_iff_fresh_witness :
  adapt_out f1 = Return (Body f1) /\
  register_decomposition aten (Leaf (Packet aten_add)) "pre_autograd" false f1
      scalar_registered =
    (Return (Body f1),
     with_table scalar_registered pre_autograd
       [(add_Tensor, Body f1); (add_Scalar, Body f1); (add_out, Body f1)]) /\
  exists o st',
    register_decomposition aten
        (Container [Leaf (Overload add_Tensor); Leaf (Packet aten_add)])
        "meta" false f1 empty_registry =
      (Raise (RuntimeError_duplicate_registrations o), st').
Proof.
  split; [reflexivity|]. split.
  - apply (registration_returns_iff_fresh aten pre_autograd (Leaf (Packet aten_add))
             f1 (Body f1) false scalar_registered eq_refl).
    split; [apply (bool_decide_unpack _); vm_compute; exact I | repeat constructor].
  - destruct (registration_returns_iff_fresh aten meta
                (Container [Leaf (Overload add_Tensor); Leaf (Packet aten_add)])
                f1 (Body f1) false empty_registry eq_refl) as [_ Hfails].
    destruct Hfails as (o & st' & _ & Hrun).
    + intros [Hnd _]. apply NoDup_cons in Hnd as [Hhead _].
      apply Hhead. left.
    + exists o, st'. exact Hrun.
Defined.

(** X2. Registration keeps every table a dictionary with unique keys,
    whatever the target, the mode string and the outcome of the call. *)
Theorem registration_keeps_unique_keys (rt : Runtime) (aten_op : PyTree AtenOp)
    (type : string) (disable_meta : bool) (f : PyFunction) (st : Registry) :
  unique_keys st ->
  unique_keys (register_decomposition rt aten_op type disable_meta f st).2.
Proof.
  intros Hst. destruct (register_decomposition_state rt aten_op type disable_meta f st)
    as [->|(ty & fn & _ & _ & ->)]; [exact Hst|].
  intros ty'. destruct (decide (ty = ty')) as [<-|Hne].
  - rewrite table_with_table. apply insert_overloads_NoDup, Hst.
  - rewrite table_with_table_ne by exact Hne. apply Hst.
Qed.

Lemma unique_keys_empty : unique_keys empty_registry.
Proof. intros []; constructor. Qed.

Lemma registration_keeps_unique_keys_witness :
  unique_keys empty_registry /\
  unique_keys
    (register_decomposition aten (Leaf (Packet aten_add)) "post_autograd" false f1
       empty_registry).2.
Proof.
  split; [exact unique_keys_empty|].
  apply (registration_keeps_unique_keys aten (Leaf (Packet aten_add)) "post_autograd"
           false f1 empty_registry).
  exact unique_keys_empty.
Defined.

(** X3. Registration never overwrites or removes an entry: an overload that
    maps to a callable in some table before the call maps to the same
    callable after it, in every mode and for every outcome of the call. *)
Theorem registration_keeps_existing_entries (rt : Runtime) (aten_op : PyTree AtenOp)
    (type : string) (disable_meta : bool) (f : PyFunction) (st : Registry)
    (ty : DecompType) (o : OpOverload) (g : Callable) :
  dict_get (global_decomposition_table st ty) o = Some g ->
  dict_get
    (global_decomposition_table
       (register_decomposition rt aten_op type disable_meta f st).2 ty) o = Some g.
Proof.
  intros Hget. destruct (register_decomposition_state rt aten_op type disable_meta f st)
    as [->|(ty' & fn & _ & _ & ->)]; [exact Hget|].
  destruct (decide (ty' = ty)) as [->|Hne].
  - rewrite table_with_table.
    destruct (insert_overloads_extends fn (expanded_overloads rt aten_op)
                (global_decomposition_table st ty)) as (pre & post & _ & ->).
    rewrite dict_get_app, Hget. reflexivity.
  - rewrite table_with_table_ne by exact Hne. exact Hget.
Qed.

Lemma registration_keeps_existing_entries_witness :
  dict_get (global_decomposition_table scalar_registered post_autograd) add_Scalar
    = Some (Body f1) /\
  dict_get
    (global_decomposition_table
       (register_decomposition aten (Leaf (Packet aten_add)) "post_autograd" false f2
          scalar_registered).2 post_autograd) add_Scalar = Some (Body f1).
Proof.
  split; [reflexivity|].
  apply (registration_keeps_existing_entries aten (Leaf (Packet aten_add))
           "post_autograd" false f2 scalar_registered post_autograd add_Scalar (Body f1)).
  reflexivity.
Defined.

(** X4. What a registration call has just registered is what a query for
    the same operators returns: after a call that returned, asking
    [get_decompositions] for the leaves of the target yields a dictionary
    in which every expanded overload maps to the registered callable.  The
    hosting runtime is assumed to build, for the packets of the target,
    overloads that name that packet as their owner. *)
Theorem register_then_get_decompositions (rt : Runtime) (ty : DecompType)
    (aten_op : PyTree AtenOp) (f : PyFunction) (fn : Callable)
    (disable_meta : bool) (st st' : Registry) :
  (forall packet ol,
     Packet packet ∈ tree_leaves aten_op -> ol ∈ overloads rt packet ->
     overloadpacket (packet_getattr rt packet ol) = packet) ->
  register_decomposition rt aten_op (type_name ty) disable_meta f st = (Return fn, st') ->
  exists decompositions,
    get_decompositions (tree_leaves aten_op) (type_name ty) st'
      = (Return decompositions, st') /\
    forall o, o ∈ expanded_overloads rt aten_op -> dict_get decompositions o = Some fn.
Proof.
  intros Howner Hrun. rewrite register_decomposition_run in Hrun.
  destruct (adapt_out f) as [fn'|e]; [|discriminate].
  destruct (insert_overloads fn' _ _) as [[[]|e] t] eqn:Hloop; [|discriminate].
  injection Hrun as -> <-.
  apply insert_overloads_Return in Hloop as (-> & _ & Hfresh).
  destruct (get_decompositions_lookup (tree_leaves aten_op) ty
              (with_table st ty (global_decomposition_table st ty
                                   ++ entries fn (expanded_overloads rt aten_op))))
    as (d & Hget & _ & Hlookup).
  exists d. split; [exact Hget|]. intros o Ho.
  rewrite Hlookup, table_with_table.
  assert (Hasked : existsb (fun op => requests op o) (tree_leaves aten_op) = true).
  { apply existsb_exists. unfold expanded_overloads in Ho.
    apply list_elem_of_bind in Ho as (leaf & Ho & Hleaf).
    exists leaf. split; [apply list_elem_of_In, Hleaf|].
    destruct leaf as [o'|packet]; simpl in Ho |- *; apply bool_decide_eq_true.
    - apply list_elem_of_singleton in Ho. congruence.
    - apply list_elem_of_fmap in Ho as (ol & -> & Hol). apply Howner; assumption. }
  rewrite Hasked, dict_get_app.
  rewrite Forall_forall in Hfresh. rewrite (Hfresh o Ho).
  apply dict_get_entries, Ho.
Qed.

Lemma register_then_get_decompositions_witness :
  (forall packet ol,
     Packet packet ∈ tree_leaves (Leaf (Packet aten_add)) -> ol ∈ overloads aten packet ->
     overloadpacket (packet_getattr aten packet ol) = packet) /\
  exists st' decompositions,
    register_decomposition aten (Leaf (Packet aten_add)) "meta" false f2 scalar_registered
      = (Return (Body f2), st') /\
    get_decompositions [Packet aten_add] "meta" st' = (Return decompositions, st') /\
    dict_get decompositions add_out = Some (Body f2).
Proof.
  assert (Howner : forall packet ol,
            Packet packet ∈ tree_leaves (Leaf (Packet aten_add)) ->
            ol ∈ overloads aten packet ->
            overloadpacket (packet_getattr aten packet ol) = packet)
    by (intros packet ol _ _; reflexivity).
  split; [exact Howner|].
  eexists. 
  destruct (register_then_get_decompositions aten meta (Leaf (Packet aten_add)) f2
              (Body f2) false scalar_registered _ Howner eq_refl)
    as (d & Hget & Hall).
  exists d. split; [reflexivity|]. split; [exact Hget|].
  apply Hall. apply (bool_decide_unpack _). vm_compute. exact I.
Defined.

(** X5. A mode string other than the three table names fails the assertion
    of [register_decomposition] and of [get_decompositions]; neither call
    touches the module state, and the function to register is not
    inspected. *)
Theorem unknown_type_fails_assertion (rt : Runtime) (type : string)
    (aten_op : PyTree AtenOp) (aten_ops : list AtenOp) (disable_meta : bool)
    (f : PyFunction) (st : Registry) :
  type <> "post_autograd" -> type <> "pre_autograd" -> type <> "meta" ->
  register_decomposition rt aten_op type disable_meta f st = (Raise AssertionError, st) /\
  get_decompositions aten_ops type st = (Raise AssertionError, st).
Proof.
  intros Hpost Hpre Hmeta.
  assert (Hty : decomp_type_of type = None).
  { unfold decomp_type_of. rewrite !decide_False by assumption. reflexivity. }
  unfold register_decomposition, get_decompositions. rewrite Hty. split; reflexivity.
Qed.

Lemma unknown_type_fails_assertion_witness :
  "Meta" <> "post_autograd" /\ "Meta" <> "pre_autograd" /\ "Meta" <> "meta" /\
  register_decomposition aten (Leaf (Packet aten_add)) "Meta" false stats_unannotated
    scalar_registered = (Raise AssertionError, scalar_registered) /\
  get_decompositions [Packet aten_add] "Meta" scalar_registered
    = (Raise AssertionError, scalar_registered).
Proof.
  split; [discriminate|]. split; [discriminate|]. split; [discriminate|].
  apply (unknown_type_fails_assertion aten "Meta" (Leaf (Packet aten_add))
           [Packet aten_add] false stats_unannotated scalar_registered);
    discriminate.
Defined.

(** X6. When [out] is annotated as a tuple and the return annotation is
    not a named tuple, the decorator fails reading [_fields] before it
    reaches the table: the call raises the attribute error and registers
    nothing, also when the target would have been a duplicate. *)
Theorem adaptation_failure_registers_nothing (rt : Runtime) (ty : DecompType)
    (aten_op : PyTree AtenOp) (disable_meta : bool) (f : PyFunction)
    (args : list Annotation) (st : Registry) :
  dict_get (annotations f) "out" = Some (TypingTuple args) ->
  (forall struct_name fields, return_annotation f <> Some (NamedTupleType struct_name fields)) ->
  register_decomposition rt aten_op (type_name ty) disable_meta f st =
    (Raise (AttributeError "_fields"), st).
Proof.
  intros Hout Hret. rewrite register_decomposition_run.
  unfold adapt_out. rewrite Hout.
  destruct (return_annotation f) as [[| |]|]; try reflexivity.
  exfalso. eapply Hret. reflexivity.
Qed.

Lemma adaptation_failure_registers_nothing_witness :
  dict_get (annotations stats_unannotated) "out"
    = Some (TypingTuple [PlainType "Tensor"; PlainType "Tensor"]) /\
  (forall struct_name fields,
     return_annotation stats_unannotated <> Some (NamedTupleType struct_name fields)) /\
  register_decomposition aten (Leaf (Overload add_Scalar)) "post_autograd" false
    stats_unannotated scalar_registered
    = (Raise (AttributeError "_fields"), scalar_registered).
Proof.
  assert (Hret : forall struct_name fields,
            return_annotation stats_unannotated <> Some (NamedTupleType struct_name fields))
    by (intros ? ?; discriminate).
  split; [reflexivity|]. split; [exact Hret|].
  apply (adaptation_failure_registers_nothing aten post_autograd
           (Leaf (Overload add_Scalar)) false stats_unannotated
           [PlainType "Tensor"; PlainType "Tensor"] scalar_registered eq_refl Hret).
Defined.

(** X7. Registration is not idempotent and a failed call cannot be retried:
    once a call for a target with at least one expanded overload has got
    past adaptation, whether it returned or raised, repeating the same call
    raises the duplicate-registration error for the first expanded overload
    and leaves the state as the first call left it. *)
Theorem repeated_registration_raises (rt : Runtime) (ty : DecompType)
    (aten_op : PyTree AtenOp) (f : PyFunction) (fn : Callable)
    (disable_meta : bool) (st : Registry) (first : OpOverload) (rest : list OpOverload) :
  adapt_out f = Return fn ->
  expanded_overloads rt aten_op = first :: rest ->
  let st' := (register_decomposition rt aten_op (type_name ty) disable_meta f st).2 in
  register_decomposition rt aten_op (type_name ty) disable_meta f st' =
    (Raise (RuntimeError_duplicate_registrations first), st').
Proof.
  intros Hf Hops st'.
  assert (Hkey : dict_contains (global_decomposition_table st' ty) first = true).
  { subst st'. rewrite register_decomposition_run, Hf, Hops. simpl.
    destruct (dict_contains (global_decomposition_table st ty) first) eqn:Hin.
    - simpl. rewrite table_with_table. exact Hin.
    - destruct (insert_overloads_extends fn rest
                  (dict_set (global_decomposition_table st ty) first fn))
        as (pre & post & _ & Hext).
      destruct (insert_overloads fn rest _) as [[[]|e] t]; simpl in *;
        rewrite table_with_table; subst t;
        apply dict_contains_true; rewrite dict_get_app, dict_get_set;
        rewrite decide_True by reflexivity; eauto. }
  rewrite register_decomposition_run, Hf, Hops. simpl. rewrite Hkey.
  rewrite with_table_same. reflexivity.
Qed.

Lemma repeated_registration_raises_witness :
  adapt_out f1 = Return (Body f1) /\
  expanded_overloads aten (Leaf (Packet aten_add)) = [add_Tensor; add_Scalar; add_out] /\
  let st' :=
    (register_decomposition aten (Leaf (Packet aten_add)) "post_autograd" false f1
       scalar_registered).2 in
  register_decomposition aten (Leaf (Packet aten_add)) "post_autograd" false f1 st' =
    (Raise (RuntimeError_duplicate_registrations add_Tensor), st').
Proof.
  split; [reflexivity|]. split; [reflexivity|].
  apply (repeated_registration_raises aten post_autograd (Leaf (Packet aten_add)) f1
           (Body f1) false scalar_registered add_Tensor [add_Scalar; add_out]);
    reflexivity.
Defined.

(** X8. A target without any overload (an empty container, or a packet
    that has no overloads) registers nothing: the call returns the callable
    and the module state is unchanged. *)
Theorem empty_target_registers_nothing (rt : Runtime) (ty : DecompType)
    (aten_op : PyTree AtenOp) (f : PyFunction) (fn : Callable)
    (disable_meta : bool) (st : Registry) :
  adapt_out f = Return fn ->
  expanded_overloads rt aten_op = [] ->
  register_decomposition rt aten_op (type_name ty) disable_meta f st = (Return fn, st).
Proof.
  intros Hf Hops. rewrite register_decomposition_run, Hf, Hops. simpl.
  rewrite with_table_same. reflexivity.
Qed.

Lemma empty_target_registers_nothing_witness :
  adapt_out f1 = Return (Body f1) /\
  expanded_overloads aten (Container [Container []; Container []]) = [] /\
  register_decomposition aten (Container [Container []; Container []]) "meta" true f1
    scalar_registered = (Return (Body f1), scalar_registered).
Proof.
  split; [reflexivity|]. split; [reflexivity|].
  apply (empty_target_registers_nothing aten meta (Container [Container []; Container []])
           f1 (Body f1) true scalar_registered); reflexivity.
Defined.

Lemma with_table_comm st ty1 ty2 t1 t2 :
  ty1 <> ty2 ->
  with_table (with_table st ty1 t1) ty2 t2 = with_table (with_table st ty2 t2) ty1 t1.
Proof. destruct ty1, ty2; intros Hne; try reflexivity; contradiction. Qed.

(** The call seen from the table of its mode: result and new table are
    those of the decorator run on that table. *)
Lemma register_decomposition_on_table (rt : Runtime) (ty : DecompType)
    (aten_op : PyTree AtenOp) (disable_meta : bool) (f : PyFunction) (st : Registry) :
  register_decomposition rt aten_op (type_name ty) disable_meta f st =
  ((decomposition_decorator rt aten_op f (global_decomposition_table st ty)).1,
   with_table st ty
     (decomposition_decorator rt aten_op f (global_decomposition_table st ty)).2).
Proof.
  unfold register_decomposition. rewrite decomp_type_of_name. unfold on_table.
  destruct (decomposition_decorator _ _ _ _); reflexivity.
Qed.

(** X9. Registrations in two different modes are independent: each call
    has the result it would have had alone, and the two calls leave the
    same module state in either order. *)
Theorem registrations_in_different_modes_commute (rt : Runtime)
    (ty1 ty2 : DecompType) (op1 op2 : PyTree AtenOp) (f1 f2 : PyFunction)
    (dm1 dm2 : bool) (st : Registry) :
  ty1 <> ty2 ->
  let r1 := register_decomposition rt op1 (type_name ty1) dm1 f1 in
  let r2 := register_decomposition rt op2 (type_name ty2) dm2 f2 in
  (r2 (r1 st).2).1 = (r2 st).1 /\
  (r1 (r2 st).2).1 = (r1 st).1 /\
  (r2 (r1 st).2).2 = (r1 (r2 st).2).2.
Proof.
  intros Hne r1 r2. subst r1 r2. cbv beta.
  rewrite !register_decomposition_on_table. simpl.
  rewrite !table_with_table_ne by congruence.
  split; [reflexivity|]. split; [reflexivity|].
  apply with_table_comm, Hne.
Qed.

Lemma registrations_in_different_modes_commute_witness :
  post_autograd <> meta /\
  (register_decomposition aten (Leaf (Overload add_Tensor)) "meta" false f2
     (register_decomposition aten (Leaf (Packet aten_add)) "post_autograd" false f1
        scalar_registered).2).2 =
  (register_decomposition aten (Leaf (Packet aten_add)) "post_autograd" false f1
     (register_decomposition aten (Leaf (Overload add_Tensor)) "meta" false f2
        scalar_registered).2).2.
Proof.
  split; [discriminate|].
  apply (registrations_in_different_modes_commute aten post_autograd meta
           (Leaf (Packet aten_add)) (Leaf (Overload add_Tensor)) f1 f2 false false
           scalar_registered).
  discriminate.
Defined.

(** ** The output wrapper *)

Lemma pop_out_kwargs_rest (names : list string) (kwargs : dict string PyObject) :
  (pop_out_kwargs names kwargs).2 = foldl dict_remove kwargs names.
Proof.
  revert kwargs. induction names as [|o names IH]; intros kwargs; simpl.
  - reflexivity.
  - rewrite <- IH. destruct (pop_out_kwargs names (dict_remove kwargs o)). reflexivity.
Qed.

Lemma dict_get_remove_all (names : list string) (kwargs : dict string PyObject) (k : string) :
  k ∉ names -> dict_get (foldl dict_remove kwargs names) k = dict_get kwargs k.
Proof.
  revert kwargs. induction names as [|o names IH]; intros kwargs Hk; simpl.
  - reflexivity.
  - apply not_elem_of_cons in Hk as [Hne Hk].
    rewrite IH by exact Hk. apply dict_get_remove_ne, Hne.
Qed.

(** With distinct slot names every pop sees the caller's value. *)
Lemma pop_out_kwargs_values (names : list string) (kwargs : dict string PyObject) :
  NoDup names -> (pop_out_kwargs names kwargs).1 = slot_value kwargs <$> names.
Proof.
  revert kwargs. induction names as [|o names IH]; intros kwargs Hnd; simpl.
  - reflexivity.
  - apply NoDup_cons in Hnd as [Ho Hnd]. specialize (IH (dict_remove kwargs o) Hnd).
    destruct (pop_out_kwargs names (dict_remove kwargs o)) as [vs rest]. simpl in *.
    subst vs. f_equal. apply list_fmap_ext. intros i o' Ho'.
    unfold slot_value. rewrite dict_get_remove_ne; [reflexivity|].
    intros ->. apply Ho. eapply list_elem_of_lookup_2, Ho'.
Qed.

Lemma all_or_none_test (v : PyObject) (vs : list PyObject) :
  forallb (fun o => bool_decide (is_None o = is_None v)) (v :: vs) =
  if is_None v then forallb is_None (v :: vs)
  else forallb (fun o => negb (is_None o)) (v :: vs).
Proof.
  destruct (is_None v) eqn:Hv; simpl; rewrite Hv; simpl;
    induction vs as [|w vs IH]; simpl; try reflexivity;
    rewrite IH; destruct (is_None w); reflexivity.
Qed.

(** The wrapper on any non-empty list of distinct slot names. *)
Lemma _fn_slots (f : PyFunction) (names : list string)
    (args : list PyObject) (kwargs : dict string PyObject) :
  NoDup names -> names <> [] -> "out" ∉ names -> dict_get kwargs "out" = None ->
  _fn f names args kwargs =
    if forallb is_None (slot_value kwargs <$> names) then
      Return {| callee := f; call_args := args;
                call_kwargs := foldl dict_remove kwargs names ++ [("out", PyNone)] |}
    else if forallb (fun v => negb (is_None v)) (slot_value kwargs <$> names) then
      Return {| callee := f; call_args := args;
                call_kwargs :=
                  foldl dict_remove kwargs names
                    ++ [("out", PyTuple (slot_value kwargs <$> names))] |}
    else Raise AssertionError.
Proof.
  intros Hnd Hne Hout Hno_out. unfold _fn.
  pose proof (pop_out_kwargs_values names kwargs Hnd) as Hvals.
  pose proof (pop_out_kwargs_rest names kwargs) as Hrest.
  destruct (pop_out_kwargs names kwargs) as [vs rest].
  cbn [fst snd] in Hvals, Hrest. subst vs rest.
  assert (Hget : dict_get (foldl dict_remove kwargs names) "out" = None)
    by (rewrite dict_get_remove_all by exact Hout; exact Hno_out).
  apply dict_contains_false in Hget as Hc.
  destruct (slot_value kwargs <$> names) as [|v vs] eqn:Hvs.
  { destruct names; [contradiction | discriminate]. }
  rewrite all_or_none_test, Hc, (dict_set_fresh _ _ _ Hget).
  destruct (is_None v) eqn:Hv.
  - destruct (forallb is_None (v :: vs)); [reflexivity|].
    cbn [forallb]. rewrite Hv. reflexivity.
  - cbn [forallb]. rewrite Hv. cbn [negb andb].
    destruct (forallb (fun v0 => negb (is_None v0)) vs); reflexivity.
Qed.

(** X10. The wrapper for any struct with distinct field names, none of
    them [out], called without [out]: when every slot is left out or
    [None] it calls the body with the slot keywords removed and
    [out=None]; when every slot has a value it calls the body with
    [out] the tuple of the values in field order; in every other case it
    raises the assertion error and the body is not called. *)
Theorem out_wrapper_slots (f : PyFunction) (first : string) (others : list string)
    (args : list PyObject) (kwargs : dict string PyObject) :
  let names := first :: others in
  let values := slot_value kwargs <$> names in
  NoDup names -> "out" ∉ names -> dict_get kwargs "out" = None ->
  _fn f names args kwargs =
    if forallb is_None values then
      Return {| callee := f; call_args := args;
                call_kwargs := foldl dict_remove kwargs names ++ [("out", PyNone)] |}
    else if forallb (fun v => negb (is_None v)) values then
      Return {| callee := f; call_args := args;
                call_kwargs := foldl dict_remove kwargs names ++ [("out", PyTuple values)] |}
    else Raise AssertionError.
Proof.
  intros names values Hnd Hout Hno_out. subst values.
  apply _fn_slots; [exact Hnd | discriminate | exact Hout | exact Hno_out].
Qed.

Lemma out_wrapper_slots_witness :
  NoDup ["values"; "indices"; "counts"] /\
  ("out" ∉ ["values"; "indices"; "counts"]) /\
  _fn stats ["values"; "indices"; "counts"] [PyTensor 0]
      [("dim", PyTensor 7); ("indices", PyTensor 2); ("counts", PyTensor 3);
       ("values", PyTensor 1)] =
    Return {| callee := stats; call_args := [PyTensor 0];
              call_kwargs :=
                [("dim", PyTensor 7);
                 ("out", PyTuple [PyTensor 1; PyTensor 2; PyTensor 3])] |} /\
  _fn stats ["values"; "indices"; "counts"] [PyTensor 0]
      [("values", PyNone); ("counts", PyTensor 3)] = Raise AssertionError.
Proof.
  assert (Hnd : NoDup ["values"; "indices"; "counts"])
    by (apply (bool_decide_unpack _); vm_compute; exact I).
  assert (Hout : "out" ∉ ["values"; "indices"; "counts"])
    by (apply (bool_decide_unpack _); vm_compute; exact I).
  split; [exact Hnd|]. split; [exact Hout|]. split.
  - apply (out_wrapper_slots stats "values" ["indices"; "counts"] [PyTensor 0]
             [("dim", PyTensor 7); ("indices", PyTensor 2); ("counts", PyTensor 3);
              ("values", PyTensor 1)] Hnd Hout eq_refl).
  - apply (out_wrapper_slots stats "values" ["indices"; "counts"] [PyTensor 0]
             [("values", PyNone); ("counts", PyTensor 3)] Hnd Hout eq_refl).
Defined.

(** X11. The wrapper does not take [out] any more: a call that passes
    [out] as a keyword never reaches the body, it raises (the assertion
    error when the slots are mixed, otherwise the type error for the
    keyword given twice). *)
Theorem out_wrapper_rejects_out (f : PyFunction) (names : list string)
    (args : list PyObject) (kwargs : dict string PyObject) (v : PyObject) :
  "out" ∉ names -> dict_get kwargs "out" = Some v ->
  _fn f names args kwargs = Raise IndexError \/
  _fn f names args kwargs = Raise AssertionError \/
  _fn f names args kwargs = Raise (TypeError_multiple_values "out").
Proof.
  intros Hout Hget. unfold _fn.
  pose proof (pop_out_kwargs_rest names kwargs) as Hrest.
  destruct (pop_out_kwargs names kwargs) as [vs rest]. simpl in Hrest. subst rest.
  destruct vs as [|v0 vs]; [left; reflexivity|]. right.
  destruct (forallb _ (v0 :: vs)); [|left; reflexivity]. right.
  assert (Hc : dict_contains (foldl dict_remove kwargs names) "out" = true).
  { apply dict_contains_true. rewrite dict_get_remove_all by exact Hout.
    rewrite Hget. eauto. }
  rewrite Hc. reflexivity.
Qed.

Lemma out_wrapper_rejects_out_witness :
  ("out" ∉ ["sum"; "count"]) /\
  dict_get [("out", PyTuple [PyTensor 1; PyTensor 2])] "out"
    = Some (PyTuple [PyTensor 1; PyTensor 2]) /\
  _fn stats ["sum"; "count"] [PyTensor 0] [("out", PyTuple [PyTensor 1; PyTensor 2])]
    = Raise (TypeError_multiple_values "out").
Proof.
  assert (Hout : "out" ∉ ["sum"; "count"])
    by (apply (bool_decide_unpack _); vm_compute; exact I).
  split; [exact Hout|]. split; [reflexivity|].
  destruct (out_wrapper_rejects_out stats ["sum"; "count"] [PyTensor 0]
              [("out", PyTuple [PyTensor 1; PyTensor 2])]
              (PyTuple [PyTensor 1; PyTensor 2]) Hout eq_refl) as [H|[H|H]];
    [discriminate H | discriminate H | exact H].
Defined.

(** ** The wrapper's signature and annotations *)






(** ** Query: exact results *)

Lemma filter_ext_elem {A} (P Q : A -> Prop) `{!forall x, Decision (P x)}
    `{!forall x, Decision (Q x)} (l : list A) :
  (forall x, x ∈ l -> (P x <-> Q x)) -> filter P l = filter Q l.
Proof.
  induction l as [|x l IH]; intros Hext; [reflexivity|].
  assert (Hl : forall y, y ∈ l -> (P y <-> Q y)) by (intros y Hy; apply Hext; right; exact Hy).
  assert (Hx : P x <-> Q x) by (apply Hext; left).
  destruct (decide (P x)) as [HP|HP].
  - rewrite (filter_cons_True P) by exact HP.
    rewrite (filter_cons_True Q) by (apply Hx, HP).
    rewrite IH by exact Hl. reflexivity.
  - rewrite (filter_cons_False P) by exact HP.
    rewrite (filter_cons_False Q) by (rewrite <- Hx; exact HP).
    apply IH, Hl.
Qed.

Lemma dict_keys_filter {V} (P : OpOverload -> Prop)
    `{!forall e : OpOverload * V, Decision (P e.1)} `{!forall o, Decision (P o)}
    (d : dict OpOverload V) :
  dict_keys (filter (fun e => P e.1) d) = filter P (dict_keys d).
Proof.
  induction d as [|[k v] d IH]; [reflexivity|].
  change (dict_keys ((k, v) :: d)) with (k :: dict_keys d).
  destruct (decide (P k)) as [HP|HP].
  - rewrite (filter_cons_True P) by exact HP.
    rewrite (filter_cons_True (fun e : OpOverload * V => P e.1)) by exact HP.
    change (dict_keys ((k, v) :: filter (fun e => P e.1) d))
      with (k :: dict_keys (filter (fun e => P e.1) d)).
    rewrite IH. reflexivity.
  - rewrite (filter_cons_False P) by exact HP.
    rewrite (filter_cons_False (fun e : OpOverload * V => P e.1)) by exact HP.
    exact IH.
Qed.

(** Copying entries of the table that are not yet in the result appends
    them, in the order given. *)
Lemma copy_entries_exact (registry entries_to_copy decompositions : Table) :
  (forall k v, (k, v) ∈ entries_to_copy -> dict_get registry k = Some v) ->
  NoDup (dict_keys decompositions ++ dict_keys entries_to_copy) ->
  for_each (copy_entry registry) (dict_keys entries_to_copy) decompositions =
    (Return tt, decompositions ++ entries_to_copy).
Proof.
  revert decompositions.
  induction entries_to_copy as [|[k v] es IH]; intros d Hreg Hnd.
  - simpl. rewrite app_nil_r. reflexivity.
  - change (dict_keys ((k, v) :: es)) with (k :: dict_keys es) in *.
    simpl. unfold bind, copy_entry at 1, dict_getitem.
    rewrite (Hreg k v) by left.
    assert (Hfresh : dict_get d k = None).
    { apply eq_None_not_Some. rewrite dict_get_keys. intros Hk.
      apply NoDup_app in Hnd as (_ & Hdisj & _). apply (Hdisj k Hk). left. }
    rewrite (dict_set_fresh _ _ _ Hfresh), IH.
    + rewrite <- app_assoc. reflexivity.
    + intros k' v' Hin. apply Hreg. right. exact Hin.
    + unfold dict_keys in *. rewrite fmap_app, <- app_assoc. exact Hnd.
Qed.

(** Requests for overloads that key the table are plain copies. *)
Lemma collect_present_overloads (registry : Table) index (ops : list OpOverload)
    (decompositions : Table) :
  Forall (fun o => is_Some (dict_get registry o)) ops ->
  for_each (collect registry index) (Overload <$> ops) decompositions =
  for_each (copy_entry registry) ops decompositions.
Proof.
  revert decompositions. induction ops as [|o ops IH]; intros d Hall; [reflexivity|].
  apply Forall_cons in Hall as [Ho Hall]. apply dict_contains_true in Ho.
  simpl. unfold bind. rewrite Ho.
  destruct (copy_entry registry o d) as [[[]|e] d']; [apply IH, Hall | reflexivity].
Qed.

(** X13. Asking for every overload of a table gives the table back: for a
    table with unique keys, [get_decompositions] on the list of its keys
    returns a dictionary with the same entries in the same order. *)
Theorem get_decompositions_of_all_keys (ty : DecompType) (st : Registry) :
  NoDup (dict_keys (global_decomposition_table st ty)) ->
  get_decompositions (Overload <$> dict_keys (global_decomposition_table st ty))
    (type_name ty) st
  = (Return (global_decomposition_table st ty), st).
Proof.
  intros Hnd. unfold get_decompositions. rewrite decomp_type_of_name.
  set (registry := global_decomposition_table st ty) in *.
  rewrite collect_present_overloads
    by (apply Forall_forall; intros o; apply dict_get_keys).
  rewrite copy_entries_exact; [reflexivity | | exact Hnd].
  intros k v. apply dict_get_NoDup, Hnd.
Qed.

Lemma get_decompositions_of_all_keys_witness :
  NoDup (dict_keys (global_decomposition_table loaded post_autograd)) /\
  get_decompositions [Overload add_Tensor; Overload view_default; Overload linear_default]
    "post_autograd" loaded
  = (Return [(add_Tensor, Body f1); (view_default, Body f1); (linear_default, Body f1)],
     loaded).
Proof.
  assert (Hnd : NoDup (dict_keys (global_decomposition_table loaded post_autograd)))
    by (apply (bool_decide_unpack _); vm_compute; exact I).
  split; [exact Hnd|].
  apply (get_decompositions_of_all_keys post_autograd loaded Hnd).
Defined.

(** X14. Asking for one family returns the entries of the table whose
    overload is owned by the family, in table order, and nothing else; the
    result is empty when the family has no registered overload. *)
Theorem get_decompositions_of_packet (ty : DecompType) (st : Registry)
    (packet : OpOverloadPacket) :
  NoDup (dict_keys (global_decomposition_table st ty)) ->
  get_decompositions [Packet packet] (type_name ty) st
  = (Return (filter (fun e => overloadpacket e.1 = packet)
               (global_decomposition_table st ty)), st).
Proof.
  intros Hnd. unfold get_decompositions. rewrite decomp_type_of_name.
  set (registry := global_decomposition_table st ty) in *.
  set (found := filter (fun e => overloadpacket e.1 = packet) registry).
  assert (Hkeys : filter (fun o => overloadpacket o = packet) (dict_keys registry)
                  = dict_keys found).
  { subst found. symmetry.
    apply (dict_keys_filter (fun o => overloadpacket o = packet)). }
  assert (Hcopy : for_each (copy_entry registry) (dict_keys found) [] = (Return tt, found)).
  { rewrite copy_entries_exact; [reflexivity | |].
    - intros k' v' Hin. subst found. apply list_elem_of_filter in Hin as [_ Hin].
      apply dict_get_NoDup; assumption.
    - simpl. rewrite <- Hkeys. apply NoDup_filter, Hnd. }
  simpl. unfold bind, dict_contains.
  rewrite packets_to_overloads_get, Hkeys.
  destruct (dict_keys found) as [|k ks] eqn:Hfound.
  - rewrite bool_decide_eq_false_2 by (intros [? ?]; discriminate).
    destruct found; [reflexivity | discriminate].
  - rewrite bool_decide_eq_true_2 by eauto. rewrite Hcopy. reflexivity.
Qed.

Lemma get_decompositions_of_packet_witness :
  NoDup (dict_keys (global_decomposition_table loaded post_autograd)) /\
  get_decompositions [Packet aten_view] "post_autograd" loaded
    = (Return [(view_default, Body f1)], loaded) /\
  get_decompositions [Packet aten_mul] "post_autograd" loaded = (Return [], loaded).
Proof.
  assert (Hnd : NoDup (dict_keys (global_decomposition_table loaded post_autograd)))
    by (apply (bool_decide_unpack _); vm_compute; exact I).
  split; [exact Hnd|]. split.
  - apply (get_decompositions_of_packet post_autograd loaded aten_view Hnd).
  - apply (get_decompositions_of_packet post_autograd loaded aten_mul Hnd).
Defined.

(** X15. Requests combine like dictionaries: the result for two request
    lists put together maps an overload to what the result for the first
    list maps it to, else to what the result for the second list maps it
    to; repeating or reordering requested items changes no lookup. *)
Theorem get_decompositions_of_combined_requests (ty : DecompType) (st : Registry)
    (ops1 ops2 : list AtenOp) :
  exists d d1 d2,
    get_decompositions (ops1 ++ ops2) (type_name ty) st = (Return d, st) /\
    get_decompositions ops1 (type_name ty) st = (Return d1, st) /\
    get_decompositions ops2 (type_name ty) st = (Return d2, st) /\
    forall o, dict_get d o =
      match dict_get d1 o with
      | Some fn => Some fn
      | None => dict_get d2 o
      end.
Proof.
  destruct (get_decompositions_lookup (ops1 ++ ops2) ty st) as (d & Hd & _ & Hget).
  destruct (get_decompositions_lookup ops1 ty st) as (d1 & Hd1 & _ & Hget1).
  destruct (get_decompositions_lookup ops2 ty st) as (d2 & Hd2 & _ & Hget2).
  exists d, d1, d2. repeat (split; [assumption|]).
  intros o. rewrite Hget, Hget1, Hget2, existsb_app.
  destruct (existsb (fun op => requests op o) ops1); simpl.
  - destruct (dict_get (global_decomposition_table st ty) o) eqn:Ho; [reflexivity|].
    destruct (existsb (fun op => requests op o) ops2); reflexivity.
  - reflexivity.
Qed.

(** ** Activation: the working table and the calls *)

Lemma filter_all {A} (P : A -> Prop) `{!forall x, Decision (P x)} (l : list A) :
  (forall x, P x) -> filter P l = l.
Proof.
  intros HP. induction l as [|x l IH]; [reflexivity|].
  rewrite filter_cons_True by apply HP. rewrite IH. reflexivity.
Qed.

(** Merging entries of [registry] into the working table appends the ones
    whose overload is not in the working table yet, in their order. *)
Lemma merge_entries_exact (registry new_entries table : Table) :
  (forall k v, (k, v) ∈ new_entries -> dict_get registry k = Some v) ->
  NoDup (dict_keys new_entries) ->
  for_each
    (fun opo activate_meta_table =>
       if dict_contains activate_meta_table opo then (Return tt, activate_meta_table)
       else
         match dict_getitem registry opo with
         | Return fn => (Return tt, dict_set activate_meta_table opo fn)
         | Raise e => (Raise e, activate_meta_table)
         end)
    (dict_keys new_entries) table =
  (Return tt, table ++ filter (fun e => e.1 ∉ dict_keys table) new_entries).
Proof.
  revert table. induction new_entries as [|[k v] es IH]; intros table Hreg Hnd.
  - simpl. rewrite app_nil_r. reflexivity.
  - change (dict_keys ((k, v) :: es)) with (k :: dict_keys es) in *.
    apply NoDup_cons in Hnd as [Hk Hnd].
    assert (Hreg' : forall k' v', (k', v') ∈ es -> dict_get registry k' = Some v')
      by (intros k' v' Hin; apply Hreg; right; exact Hin).
    simpl. unfold bind. destruct (dict_contains table k) eqn:Hin.
    + rewrite (IH table Hreg' Hnd). rewrite filter_cons_False; [reflexivity|].
      simpl. intros Hnot. apply Hnot, dict_get_keys, dict_contains_true, Hin.
    + apply dict_contains_false in Hin as Hfresh.
      unfold dict_getitem. rewrite (Hreg k v) by left.
      rewrite (dict_set_fresh _ _ _ Hfresh), (IH _ Hreg' Hnd).
      rewrite filter_cons_True
        by (simpl; rewrite <- dict_get_keys, Hfresh; intros [? ?]; discriminate).
      rewrite <- app_assoc. simpl. do 3 f_equal.
      apply filter_ext_elem. intros [k' v'] Hin'. simpl.
      unfold dict_keys. rewrite fmap_app, elem_of_app. simpl.
      rewrite list_elem_of_singleton.
      assert (k' <> k).
      { intros ->. apply Hk. unfold dict_keys.
        apply list_elem_of_fmap. exists (k, v'). split; [reflexivity | exact Hin']. }
      tauto.
Qed.

Lemma merge_registry_exact (registry table : Table) :
  NoDup (dict_keys registry) ->
  merge_registry registry table =
    (Return tt, table ++ filter (fun e => e.1 ∉ dict_keys table) registry).
Proof.
  intros Hnd. unfold merge_registry. apply merge_entries_exact; [|exact Hnd].
  intros k v. apply dict_get_NoDup, Hnd.
Qed.

(** X16. With well-formed tables, the working table of [activate_meta] is
    the meta table, followed by the post-autograd entries whose overload is
    not in the meta table, followed by the pre-autograd entries whose
    overload is in neither.  The calls of a pass that have returned are the
    calls of these entries in that order, up to the first call the
    dispatcher refuses: all of them when the pass returns. *)
Theorem activation_order (rt : Runtime) (dispatcher : Dispatcher) (st : Registry)
    (history : list DispatchCall) :
  unique_keys st ->
  let from_meta := meta_table st in
  let with_post :=
    from_meta ++ filter (fun e => e.1 ∉ dict_keys from_meta) (decomposition_table st) in
  let with_pre :=
    with_post ++ filter (fun e => e.1 ∉ dict_keys with_post)
                   (pre_autograd_decomposition_table st) in
  let run := activate_meta rt dispatcher st history in
  build_activate_meta_table st [] = (Return tt, with_pre) /\
  exists issued rest,
    run.2 = history ++ issued /\
    with_pre ≫= entry_calls rt = issued ++ rest /\
    (run.1 = Return tt -> rest = []) /\
    (forall e, run.1 = Raise e ->
       exists c rest', rest = c :: rest' /\ refuses dispatcher run.2 c = Some e).
Proof.
  intros Hst from_meta with_post with_pre run.
  assert (Hbuild : build_activate_meta_table st [] = (Return tt, with_pre)).
  { unfold build_activate_meta_table. simpl. unfold bind.
    rewrite (merge_registry_exact (meta_table st) []) by exact (Hst meta).
    simpl. rewrite (filter_all (fun e : OpOverload * Callable => e.1 ∉ []))
      by (intros e; apply not_elem_of_nil).
    rewrite (merge_registry_exact (decomposition_table st)) by exact (Hst post_autograd).
    rewrite (merge_registry_exact (pre_autograd_decomposition_table st))
      by exact (Hst pre_autograd).
    reflexivity. }
  split; [exact Hbuild|]. subst run.
  destruct (activate_meta_outcome rt dispatcher st history)
    as (table & issued & rest & Hbuild' & _ & _ & Hsplit & Hstate & Hout).
  rewrite Hbuild in Hbuild'. injection Hbuild' as <-.
  exists issued, rest. split; [exact Hstate|]. split; [exact Hsplit|]. split.
  - intros Hret. rewrite Hret in Hout. exact Hout.
  - intros e He. rewrite He in Hout. rewrite Hstate. exact Hout.
Qed.

Lemma unique_keys_loaded : unique_keys loaded.
Proof. intros []; apply (bool_decide_unpack _); vm_compute; exact I. Qed.

Lemma activation_order_witness :
  unique_keys loaded /\
  build_activate_meta_table loaded [] =
    (Return tt,
     [(add_Tensor, Body f2); (view_default, Body f1); (linear_default, Body f1);
      (mul_default, Body f1)]).
Proof.
  split; [exact unique_keys_loaded|].
  apply (activation_order aten strict loaded [] unique_keys_loaded).
Defined.

Lemma py_impl_targets (rt : Runtime) (table : Table) :
  omap py_impl_target (table ≫= entry_calls rt) = dict_keys table.
Proof.
  induction table as [|[o fn] table IH]; [reflexivity|].
  rewrite bind_cons, omap_app, IH. unfold entry_calls. simpl.
  destruct (installable rt o); reflexivity.
Qed.

Lemma install_targets (rt : Runtime) (table : Table) :
  omap install_target (table ≫= entry_calls rt) =
  filter (fun o => installable rt o = true) (dict_keys table).
Proof.
  induction table as [|[o fn] table IH]; [reflexivity|].
  rewrite bind_cons, omap_app, IH. unfold entry_calls.
  change (dict_keys ((o, fn) :: table)) with (o :: dict_keys table). simpl.
  destruct (installable rt o) eqn:Hok.
  - rewrite filter_cons_True by exact Hok. reflexivity.
  - rewrite filter_cons_False by congruence. reflexivity.
Qed.

(** X17. A pass of [activate_meta] handles no overload twice: among the
    calls that returned, the overloads of the [py_impl] calls are pairwise
    distinct and each keys one of the three tables, and the overloads of
    the install calls are pairwise distinct and each is a registered
    overload that no exclusion rule applies to.  A pass that returns has
    handled them all: every registered overload has its [py_impl] call and
    every registered overload that is not excluded its install call. *)
Theorem activation_handles_each_overload_once (rt : Runtime)
    (dispatcher : Dispatcher) (st : Registry) (history : list DispatchCall) :
  let run := activate_meta rt dispatcher st history in
  exists issued,
    run.2 = history ++ issued /\
    NoDup (omap py_impl_target issued) /\
    NoDup (omap install_target issued) /\
    forall o,
      let registered :=
        is_Some (dict_get (meta_table st) o) \/
        is_Some (dict_get (decomposition_table st) o) \/
        is_Some (dict_get (pre_autograd_decomposition_table st) o) in
      (o ∈ omap py_impl_target issued -> registered) /\
      (o ∈ omap install_target issued -> registered /\ installable rt o = true) /\
      (run.1 = Return tt ->
       (registered -> o ∈ omap py_impl_target issued) /\
       (registered -> installable rt o = true -> o ∈ omap install_target issued)).
Proof.
  intros run. subst run.
  destruct (activate_meta_outcome rt dispatcher st history)
    as (table & issued & rest & Hbuild & Hnd & Hget & Hsplit & Hstate & Hout).
  exists issued. split; [exact Hstate|].
  pose proof (py_impl_targets rt table) as Hpy.
  pose proof (install_targets rt table) as Hinst.
  rewrite Hsplit, omap_app in Hpy, Hinst.
  assert (Hnd_py : NoDup (omap py_impl_target issued ++ omap py_impl_target rest))
    by (rewrite Hpy; exact Hnd).
  assert (Hnd_inst : NoDup (omap install_target issued ++ omap install_target rest))
    by (rewrite Hinst; apply NoDup_filter, Hnd).
  split; [apply NoDup_app in Hnd_py as [H _]; exact H|].
  split; [apply NoDup_app in Hnd_inst as [H _]; exact H|].
  intros o registered.
  assert (Hkeys : o ∈ dict_keys table <-> registered).
  { rewrite <- dict_get_keys, Hget. subst registered.
    destruct (dict_get (meta_table st) o) as [g|].
    - split; [intros _; left; eauto | intros _; eauto].
    - destruct (dict_get (decomposition_table st) o) as [g|].
      + split; [intros _; right; left; eauto | intros _; eauto].
      + split; [intros H; right; right; exact H|].
        intros [[? H]|[[? H]|H]]; [discriminate | discriminate | exact H]. }
  split; [|split].
  - intros Ho. apply Hkeys. rewrite <- Hpy. apply elem_of_app. left. exact Ho.
  - intros Ho.
    assert (Hin : o ∈ filter (fun o => installable rt o = true) (dict_keys table))
      by (rewrite <- Hinst; apply elem_of_app; left; exact Ho).
    apply list_elem_of_filter in Hin as [Hok Hin]. split; [apply Hkeys, Hin | exact Hok].
  - intros Hret. rewrite Hret in Hout. subst rest. simpl in Hpy, Hinst.
    rewrite app_nil_r in Hpy, Hinst. rewrite Hpy, Hinst. split.
    + intros Hreg. apply Hkeys, Hreg.
    + intros Hreg Hok. apply list_elem_of_filter. split; [exact Hok | apply Hkeys, Hreg].
Qed.

(** ** Registration followed by activation *)

(** X18. What is registered as meta is what activation uses: after a
    registration in the meta table that returned, in every pass the
    [py_impl] and install calls made for an expanded overload carry the
    registered callable and no other, and an install call is made for it
    only if no exclusion rule applies; a pass that returns has made the
    [py_impl] call, and the install call unless the overload is excluded,
    whatever the other two tables hold for it. *)
Theorem meta_registration_decides_activation (rt : Runtime) (dispatcher : Dispatcher)
    (aten_op : PyTree AtenOp) (f : PyFunction) (fn : Callable) (disable_meta : bool)
    (st st' : Registry) (o : OpOverload) (history : list DispatchCall) :
  register_decomposition rt aten_op "meta" disable_meta f st = (Return fn, st') ->
  o ∈ expanded_overloads rt aten_op ->
  let run := activate_meta rt dispatcher st' history in
  exists issued,
    run.2 = history ++ issued /\
    (forall g, py_impl o Meta g ∈ issued -> g = fn) /\
    (forall g, meta_lib_impl o g ∈ issued -> g = fn /\ installable rt o = true) /\
    (run.1 = Return tt ->
     py_impl o Meta fn ∈ issued /\
     (installable rt o = true -> meta_lib_impl o fn ∈ issued)).
Proof.
  intros Hrun Ho run. subst run.
  change "meta" with (type_name meta) in Hrun.
  rewrite register_decomposition_run in Hrun.
  destruct (adapt_out f) as [fn'|e]; [|discriminate].
  destruct (insert_overloads fn' _ _) as [[[]|e] t] eqn:Hloop; [|discriminate].
  injection Hrun as -> <-.
  apply insert_overloads_Return in Hloop as (-> & _ & Hfresh).
  rewrite Forall_forall in Hfresh.
  match goal with
  | |- context [activate_meta rt dispatcher ?s history] => set (st' := s) in *
  end.
  destruct (activate_meta_outcome rt dispatcher st' history)
    as (table & issued & rest & Hbuild & Hnd & Hget & Hsplit & Hstate & Hout).
  assert (Hfn : dict_get table o = Some fn).
  { rewrite Hget. unfold st'. simpl. rewrite dict_get_app. simpl in Hfresh.
    rewrite (Hfresh o Ho), (dict_get_entries fn _ o Ho). reflexivity. }
  assert (Hentry : forall g, (o, g) ∈ table <-> g = fn).
  { intros g. split.
    - intros Hin. apply (dict_get_NoDup _ _ _ Hnd) in Hin. congruence.
    - intros ->. apply dict_get_elem, Hfn. }
  assert (Hfull : forall c, c ∈ issued -> c ∈ table ≫= entry_calls rt)
    by (intros c Hc; rewrite Hsplit; apply elem_of_app; left; exact Hc).
  exists issued. split; [exact Hstate|]. split; [|split].
  - intros g Hcall. apply Hentry. apply (py_impl_in_calls rt), Hfull, Hcall.
  - intros g Hcall. apply Hfull, meta_lib_impl_in_calls in Hcall as [Hin Hok].
    split; [apply Hentry, Hin | exact Hok].
  - intros Hret. rewrite Hret in Hout. subst rest. rewrite app_nil_r in Hsplit.
    rewrite <- Hsplit. split.
    + apply py_impl_in_calls, Hentry. reflexivity.
    + intros Hok. apply meta_lib_impl_in_calls. split; [apply Hentry; reflexivity | exact Hok].
Qed.

Lemma meta_registration_decides_activation_witness :
  exists st',
    register_decomposition aten (Leaf (Packet aten_add)) "meta" false f2 scalar_registered
      = (Return (Body f2), st') /\
    (activate_meta aten strict st' []).1 = Return tt /\
    meta_lib_impl add_Scalar (Body f2) ∈ (activate_meta aten strict st' []).2 /\
    (meta_lib_impl add_Scalar (Body f1) ∉ (activate_meta aten strict st' []).2).
Proof.
  assert (Hin : add_Scalar ∈ expanded_overloads aten (Leaf (Packet aten_add)))
    by (apply (bool_decide_unpack _); vm_compute; exact I).
  eexists.
  destruct (meta_registration_decides_activation aten strict (Leaf (Packet aten_add)) f2
              (Body f2) false scalar_registered _ add_Scalar [] eq_refl Hin)
    as (issued & Hstate & _ & Hinstall & Hdone).
  split; [reflexivity|]. split; [reflexivity|].
  rewrite Hstate. simpl. split.
  - apply Hdone; reflexivity.
  - intros Hcall. apply Hinstall in Hcall as [Hne _]. discriminate Hne.
Defined.
